(** * Apple fiscal calendar (package [fiscal]): a shallow embedding

    The Go package computes the boundaries of fiscal years, quarters and
    periods by walking forward from the anchor 2005-09-25 00:00:00 UTC, and
    classifies a date into the fiscal year, quarter or period containing it.

    Modelling choices.
    - A [time.Time] is an instant in UTC, held as the number of nanoseconds
      since 1970-01-01 00:00:00 UTC, unbounded (the anchor is built with
      [time.UTC] and [Add] keeps the location; dates handed to the
      classifiers are taken in UTC as well).  [Year()] and [Day()] read the
      proleptic Gregorian calendar.
    - A [time.Duration] is an int64 count of nanoseconds; [Sub] and [Round]
      saturate as the Go documentation says.
    - Go's [int] is the 64-bit two's complement integer; the loop counters
      [quarter++], [period++] and the year increments wrap around.  The
      arithmetic on clamped indices and on day counts stays far below
      [2^63] and is written without the wrap.
    - [float64] is IEEE-754 binary64, computed with the reference
      implementation [SpecFloat] of the standard library.
    - The unbounded [for] loops take a fuel argument and return [None] when
      it runs out: a call returns [v] when every large enough fuel gives
      [Some v]. *)

From Stdlib Require Import ZArith Lia List Bool.
From Stdlib Require Import Floats.SpecFloat.
From Stdlib Require Import Ascii String.
Import ListNotations.

Local Open Scope Z_scope.

(** ** A small option monad for the fuel-bounded loops *)

Definition bind {A B : Type} (m : option A) (k : A -> option B) : option B :=
match m with
| Some a => k a
| None => None
end.

Notation "x <- m ;; k" := (bind m (fun x => k))
(at level 61, m at next level, right associativity).
Notation "' p <- m ;; k" := (bind m (fun x => match x with p => k end))
(at level 61, p pattern, m at next level, right associativity).

(** ** Go's [int] (64 bits) *)

Module int.

Definition min : Z := - 2 ^ 63.
Definition max : Z := 2 ^ 63 - 1.

(** Two's complement wrap-around of a mathematical integer. *)
Definition wrap (z : Z) : Z := (z + 2 ^ 63) mod 2 ^ 64 - 2 ^ 63.

Definition add (a b : Z) : Z := wrap (a + b).

(** [a / b] of Go truncates toward zero. *)
Definition div (a b : Z) : Z := Z.quot a b.

End int.

(** ** IEEE-754 binary64 *)

Module float64.

Definition prec : Z := 53.
Definition emax : Z := 1024.

Definition t := spec_float.

(** [float64(z)] for an integer [z]: rounding to nearest even. *)
Definition of_int (z : Z) : t := binary_normalize prec emax z 0 false.

Definition add : t -> t -> t := SFadd prec emax.
Definition div : t -> t -> t := SFdiv prec emax.

(** [a > b]. *)
Definition gt (a b : t) : bool := SFltb b a.

(** [int(f)]: the fractional part is discarded (truncation toward zero). *)
Definition to_int (f : t) : Z :=
  match f with
  | S754_finite s m e =>
      let v := if 0 <=? e then Zpos m * 2 ^ e else Zpos m / 2 ^ (- e) in
      if s then - v else v
  | _ => 0
  end.

End float64.

(** ** The part of Go's [time] package the program uses *)

Module time.

Definition Duration := Z.
Definition Time := Z.

Definition Nanosecond : Duration := 1.
Definition Second : Duration := 1000000000.
Definition Minute : Duration := 60 * Second.
Definition Hour : Duration := 60 * Minute.

Definition minDuration : Duration := - 2 ^ 63.
Definition maxDuration : Duration := 2 ^ 63 - 1.

Definition saturate (d : Z) : Duration :=
  if d <? minDuration then minDuration
  else if maxDuration <? d then maxDuration
  else d.

(** *** Durations *)

(** [d.Round(m)]: the nearest multiple of [m], halfway values away from
    zero, saturating. *)
Definition Round (d m : Duration) : Duration :=
  if m <=? 0 then d
  else
    let r := Z.rem d m in
    if d <? 0 then
      let r := - r in
      if r + r <? m then d + r else saturate (d - m + r)
    else
      if r + r <? m then d - r else saturate (d + m - r).

(** [d.Hours()]. *)
Definition Hours (d : Duration) : float64.t :=
  let hour := Z.quot d Hour in
  let nsec := Z.rem d Hour in
  float64.add (float64.of_int hour)
              (float64.div (float64.of_int nsec)
                           (float64.of_int (60 * 60 * 1000000000))).

(** *** The proleptic Gregorian calendar *)

Definition isLeap (year : Z) : bool :=
  (year mod 4 =? 0) && (negb (year mod 100 =? 0) || (year mod 400 =? 0)).

(** Days from 0001-01-01 to the first of January of [year]. *)
Definition daysBeforeYear (year : Z) : Z :=
  let y := year - 1 in
  365 * y + y / 4 - y / 100 + y / 400.

(** Days from 0001-01-01 to 1970-01-01. *)
Definition unixEpochDays : Z := 719162.

Definition daysPer400Years : Z := 365 * 400 + 97.
Definition daysPer100Years : Z := 365 * 100 + 24.
Definition daysPer4Years : Z := 365 * 4 + 1.

(** Year and zero-based day of the year of the day number [d] (counted
    from 0001-01-01): 400-year, 100-year and 4-year cycles are cut off in
    turn. *)
Definition absDate (d : Z) : Z * Z :=
  let n := d / daysPer400Years in
  let y := 400 * n in
  let d := d - daysPer400Years * n in
  let n := d / daysPer100Years in
  let n := n - n / 4 in
  let y := y + 100 * n in
  let d := d - daysPer100Years * n in
  let n := d / daysPer4Years in
  let y := y + 4 * n in
  let d := d - daysPer4Years * n in
  let n := d / 365 in
  let n := n - n / 4 in
  let y := y + n in
  let d := d - 365 * n in
  (y + 1, d).

(** [daysBefore[m]]: days in a non-leap year before month [m+1]. *)
Definition daysBefore : list Z :=
  [0; 31; 59; 90; 120; 151; 181; 212; 243; 273; 304; 334; 365].

(** Month (1..12) and day of the month for a day of the year. *)
Definition monthDay (leap : bool) (yday : Z) : Z * Z :=
  if leap && (yday =? 31 + 29 - 1) then (2, 29)
  else
    let day := if leap && (yday >? 31 + 29 - 1) then yday - 1 else yday in
    let month := day / 31 in
    let end_ := nth (Z.to_nat (month + 1)) daysBefore 0 in
    if day >=? end_ then (month + 2, day - end_ + 1)
    else (month + 1, day - nth (Z.to_nat month) daysBefore 0 + 1).

Definition nsPerDay : Z := 24 * Hour.

(** Day number, from 0001-01-01, of the instant [t]. *)
Definition absDay (t : Time) : Z := t / nsPerDay + unixEpochDays.

(** [t.Year()]. *)
Definition Year (t : Time) : Z := fst (absDate (absDay t)).

(** [t.Day()]: the day of the month. *)
Definition Day (t : Time) : Z :=
  let '(year, yday) := absDate (absDay t) in
  snd (monthDay (isLeap year) yday).

(** [time.Date(year, month, day, hour, min, sec, nsec, time.UTC)], for
    arguments in their usual ranges. *)
Definition Date (year month day hour min sec nsec : Z) : Time :=
  let yday :=
    nth (Z.to_nat (month - 1)) daysBefore 0
    + (if isLeap year && (month >=? 3) then 1 else 0) + day - 1 in
  let days := daysBeforeYear year + yday - unixEpochDays in
  days * nsPerDay + hour * Hour + min * Minute + sec * Second + nsec.

Definition September : Z := 9.

(** *** Instants *)

Definition Add (t : Time) (d : Duration) : Time := t + d.
Definition Sub (t u : Time) : Duration := saturate (t - u).
Definition Before (t u : Time) : bool := t <? u.
Definition After (t u : Time) : bool := t >? u.

End time.

(** ** Package [fiscal] *)

Module fiscal.

Definition Day : time.Duration := 24 * time.Hour.

(** The anchor: [time.Date(2005, time.September, 25, 0, 0, 0, 0, time.UTC)]. *)
Definition first : time.Time := time.Date 2005 time.September 25 0 0 0 0.

(** *** [Year]

    [for start = first; true; start = end { ... }]: [fuel] bounds the number
    of iterations. *)
Fixpoint Year_loop (fuel : nat) (year : Z) (start : time.Time)
  : option (time.Time * time.Time) :=
  match fuel with
  | O => None
  | S fuel' =>
      let end_ := time.Add start (364 * Day) in
      let end_ :=
        if time.Day end_ <? 25 then time.Add end_ (7 * Day) else end_ in
      if time.Year end_ >=? year
      then Some (start, time.Add end_ (- time.Nanosecond))
      else Year_loop fuel' year end_
  end.

Definition Year (fuel : nat) (year : Z) : option (time.Time * time.Time) :=
  Year_loop fuel year first.

(** *** [Quarter] *)
Definition Quarter (fuel : nat) (year quarter : Z)
  : option (time.Time * time.Time) :=
  '(start, end_) <- Year fuel year ;;
  let quarter := if quarter <? 1 then 1 else quarter in
  let quarter := if quarter >? 4 then 4 else quarter in
  let quarter := quarter - 1 in
  let qstart := quarter * 91 in
  let qend := (quarter + 1) * 91 in
  let '(qstart, qend) :=
    if float64.gt
         (float64.div (time.Hours (time.Sub end_ start)) (float64.of_int 24))
         (float64.of_int 364)
    then (qstart + int.div (quarter + 3) 4 * 7,
          qend + int.div (quarter + 4) 4 * 7)
    else (qstart, qend) in
  Some (time.Add start (qstart * Day),
        time.Add (time.Add start (qend * Day)) (- time.Nanosecond)).

(** *** [Period] *)
Definition Period (fuel : nat) (year period : Z)
  : option (time.Time * time.Time) :=
  '(start, end_) <- Year fuel year ;;
  let period := if period <? 1 then 1 else period in
  let period := if period >? 12 then 12 else period in
  let period := period - 1 in
  let pstart := period * 28 + int.div (period + 2) 3 * 7 in
  let pend := (period + 1) * 28 + int.div (period + 3) 3 * 7 in
  let '(pstart, pend) :=
    if float64.gt
         (float64.div (time.Hours (time.Sub end_ start)) (float64.of_int 24))
         (float64.of_int 364)
    then (pstart + int.div (period + 9) 12 * 7,
          pend + int.div (period + 10) 12 * 7)
    else (pstart, pend) in
  Some (time.Add start (pstart * Day),
        time.Add (time.Add start (pend * Day)) (- time.Nanosecond)).

(** *** [YearForDate] *)
Definition YearForDate (fuel : nat) (date : time.Time) : option Z :=
  '(_, end_) <- Year fuel (time.Year date) ;;
  if time.Before end_ date
  then Some (int.add (time.Year date) 1)
  else Some (time.Year date).

(** The loop of [QuarterForDate] and of [PeriodForDate],
    [for i = seed; true; i++ { start, end = resolve(year, i); ... }],
    [resolve] being [Quarter] or [Period]; [n] bounds its iterations. *)
Fixpoint scan (resolve : Z -> Z -> option (time.Time * time.Time)) (n : nat)
  (date : time.Time) (year i : Z) : option (Z * Z) :=
  match n with
  | O => None
  | S n' =>
      '(start, end_) <- resolve year i ;;
      if negb (time.Before date start) && negb (time.After date end_)
      then Some (year, i)
      else scan resolve n' date year (int.add i 1)
  end.

(** *** [QuarterForDate] *)
Definition QuarterForDate (fuel : nat) (date : time.Time) : option (Z * Z) :=
  let year := time.Year date in
  '(start, end_) <- Year fuel year ;;
  let '(year, start) :=
    if time.Before end_ date
    then (int.add year 1, time.Add end_ time.Nanosecond)
    else (year, start) in
  let daysSinceStart :=
    float64.to_int
      (float64.div (time.Hours (time.Round (time.Sub date start) time.Hour))
                   (float64.of_int 24)) in
  scan (Quarter fuel) fuel date year (1 + int.div daysSinceStart 98).

(** *** [PeriodForDate] *)
Definition PeriodForDate (fuel : nat) (date : time.Time) : option (Z * Z) :=
  let year := time.Year date in
  '(start, end_) <- Year fuel year ;;
  let '(year, start) :=
    if time.Before end_ date
    then (int.add year 1, time.Add end_ time.Nanosecond)
    else (year, start) in
  let daysSinceStart :=
    float64.to_int
      (float64.div (time.Hours (time.Round (time.Sub date start) time.Hour))
                   (float64.of_int 24)) in
  scan (Period fuel) fuel date year (1 + int.div daysSinceStart 35).

End fiscal.

(** ** Package [report]: the argument checks

    A Go [error] is [None] for [nil] and [Some msg] for [errors.New(msg)];
    [len(s)] is the number of bytes of [s].  The clock reading
    [time.Now()] is an argument. *)

Module report.

Record Config := { AccessToken : string; Mode : string }.

(** The double quote inside an error message. *)
Definition quote : string := String (ascii_of_nat 34) EmptyString.

Definition len (s : string) : Z := Z.of_nat (String.length s).

(** *** [Config.Check] *)
Definition Check (cfg : Config) : option string :=
  if negb (String.eqb (Mode cfg) "Normal")
     && negb (String.eqb (Mode cfg) "Robot.xml")
  then Some "undefined mode. Use available modes: Normal or Robot.xml"%string
  else if String.eqb (AccessToken cfg) EmptyString
  then Some "access token not set"%string
  else None.

(** *** [validateSalesReportArgs] *)
Definition validateSalesReportArgs (account vendor : Z)
  (reportType reportSubType dateType date : string) : option string :=
  if account <=? 0 then Some "wrong account number"%string
  else if vendor <=? 0 then Some "wrong vendor number"%string
  else if negb (String.eqb reportType "Sales")
          && negb (String.eqb reportType "Newsstand")
  then Some "wrong ReportType, use: Sales or Newsstand"%string
  else if negb (String.eqb reportSubType "Summary"
                || String.eqb reportSubType "Detailed"
                || String.eqb reportSubType "Opt-In")
  then Some "wrong ReportSubType, use: Summary, Detailed or Opt-In"%string
  else if String.eqb dateType "Daily" then
    if negb (len date =? 8)
    then Some "wrong DateType format for Daily Report, use: YYYYMMDD"%string
    else None
  else if String.eqb dateType "Weekly" then
    if negb (len date =? 8)
    then Some "wrong DateType format for Weekly Report, use: YYYYMMDD"%string
    else None
  else if String.eqb dateType "Monthly" then
    if negb (len date =? 6)
    then Some "wrong DateType format for Monthly Report, use: YYYYMM"%string
    else None
  else if String.eqb dateType "Yearly" then
    if negb (len date =? 4)
    then Some "wrong DateType format for Yearly Report, use: YYYY"%string
    else None
  else Some "wrong DateType, use: Daily, Weekly, Monthly or Yearly"%string.

(** *** [validateFinancialReportArgs] *)
Definition validateFinancialReportArgs (now : time.Time) (account vendor : Z)
  (regionCode reportType : string) (fiscalYear fiscalPeriod : Z)
  : option string :=
  if account <=? 0 then Some "wrong account number"%string
  else if vendor <=? 0 then Some "wrong vendor number"%string
  else if negb (len regionCode =? 2) then Some "wrong region code"%string
  else if negb (String.eqb reportType "Financial")
  then Some ("wrong report type: " ++ quote
             ++ "Currently only one report type is available: Financial"
             ++ quote)%string
  else if (fiscalYear >? int.add (time.Year now) 1) || (fiscalYear <=? 0)
  then Some "wrong fiscal year"%string
  else if (fiscalPeriod <? 1) || (fiscalPeriod >? 12)
  then Some "wrong fiscal period, it should be: 1-12"%string
  else None.

End report.

(** ** Package [report], the earlier copy of the argument checks

    The copy of the package that comes with the fiscal calendar: the same
    checks with capitalised messages, and a fiscal year bounded by the
    current calendar year. *)

Module report0.

Record Config := { AccessToken : string; Mode : string }.

(** *** [checkConfig] *)
Definition checkConfig (cfg : Config) : option string :=
  if negb (String.eqb (Mode cfg) "Normal")
     && negb (String.eqb (Mode cfg) "Robot.xml")
  then Some "Undefined mode. Use available modes: Normal or Robot.xml"%string
  else if String.eqb (AccessToken cfg) EmptyString
  then Some "AccessToken not set"%string
  else None.

(** *** [validateSalesReportArgs] *)
Definition validateSalesReportArgs (account vendor : Z)
  (reportType reportSubType dateType date : string) : option string :=
  if account <=? 0 then Some "Wrong account number"%string
  else if vendor <=? 0 then Some "Wrong vendor number"%string
  else if negb (String.eqb reportType "Sales")
          && negb (String.eqb reportType "Newsstand")
  then Some "Wrong ReportType, use: Sales or Newsstand"%string
  else if negb (String.eqb reportSubType "Summary"
                || String.eqb reportSubType "Detailed"
                || String.eqb reportSubType "Opt-In")
  then Some "Wrong ReportSubType, use: Summary, Detailed or Opt-In"%string
  else if String.eqb dateType "Daily" then
    if negb (report.len date =? 8)
    then Some "Wrong DateType format for Daily Report, use: YYYYMMDD"%string
    else None
  else if String.eqb dateType "Weekly" then
    if negb (report.len date =? 8)
    then Some "Wrong DateType format for Weekly Report, use: YYYYMMDD"%string
    else None
  else if String.eqb dateType "Monthly" then
    if negb (report.len date =? 6)
    then Some "Wrong DateType format for Monthly Report, use: YYYYMM"%string
    else None
  else if String.eqb dateType "Yearly" then
    if negb (report.len date =? 4)
    then Some "Wrong DateType format for Yearly Report, use: YYYY"%string
    else None
  else Some "Wrong DateType, use: Daily, Weekly, Monthly or Yearly"%string.

(** *** [validateFinancialReportArgs] *)
Definition validateFinancialReportArgs (now : time.Time) (account vendor : Z)
  (regionCode reportType : string) (fiscalYear fiscalPeriod : Z)
  : option string :=
  if account <=? 0 then Some "Wrong account number"%string
  else if vendor <=? 0 then Some "Wrong vendor number"%string
  else if negb (report.len regionCode =? 2) then Some "Wrong region code"%string
  else if negb (String.eqb reportType "Financial")
  then Some ("Worng report type: " ++ report.quote
             ++ "Currently only one report type is available: Financial"
             ++ report.quote ++ ".")%string
  else if (fiscalYear >? time.Year now) || (fiscalYear <=? 0)
  then Some "Wrong fiscal year"%string
  else if (fiscalPeriod <? 1) || (fiscalPeriod >? 12)
  then Some "Wrong fiscal period, it should be: 1-12"%string
  else None.

End report0.

(** ** Vocabulary of the statements *)

(** Number of days of the calendar year [Y]. *)
Definition yearLen (Y : Z) : Z := if time.isLeap Y then 366 else 365.

(** Midnight UTC opening the day number [n] (counted from 0001-01-01). *)
Definition atDay (n : Z) : time.Time := (n - time.unixEpochDays) * time.nsPerDay.

(** Day number of the 25th of September of the calendar year [Y]. *)
Definition sep25 (Y : Z) : Z :=
  time.daysBeforeYear Y + (if time.isLeap Y then 268 else 267).

(** [t] is midnight of a day from 25 September to 1 October of year [Y]. *)
Definition lateSep (Y : Z) (t : time.Time) : Prop :=
  exists d, 0 <= d <= 6 /\ t = atDay (sep25 Y + d).

(** The body of the loop of [fiscal.Year]: the end (exclusive) of the fiscal
    year that starts at [start]. *)
Definition candidateEnd (start : time.Time) : time.Time :=
  let end_ := time.Add start (364 * fiscal.Day) in
  if time.Day end_ <? 25 then time.Add end_ (7 * fiscal.Day) else end_.

(** Start of the fiscal year [2006 + k], by [k] turns of the loop. *)
Definition yearStart (k : nat) : time.Time := Nat.iter k candidateEnd fiscal.first.

(** Fuel that lets [fiscal.Year year] return. *)
Definition fuelFor (year : Z) : nat := S (Z.to_nat (year - 2006)).

(** Whole number of days covered by a range [start, end], when [end] is the
    last nanosecond of a day-aligned span. *)
Definition daysOf (r : option (time.Time * time.Time)) : option Z :=
  '(start, end_) <- r ;;
  let span := time.Add end_ time.Nanosecond - start in
  if span mod fiscal.Day =? 0 then Some (span / fiscal.Day) else None.

(** The 53-week test of [fiscal.Quarter] and [fiscal.Period]:
    [end.Sub(start).Hours()/24 > 364]. *)
Definition longYear (start end_ : time.Time) : bool :=
  float64.gt
    (float64.div (time.Hours (time.Sub end_ start)) (float64.of_int 24))
    (float64.of_int 364).

(** The seed's day count: [int(date.Sub(start).Round(time.Hour).Hours()/24)]. *)
Definition daysSince (date start : time.Time) : Z :=
  float64.to_int
    (float64.div (time.Hours (time.Round (time.Sub date start) time.Hour))
                 (float64.of_int 24)).

(** The fiscal year number and the start of year the two scanning
    classifiers settle on before they scan. *)
Definition yearOf (fuel : nat) (date : time.Time) : option (Z * time.Time) :=
  let year := time.Year date in
  '(start, end_) <- fiscal.Year fuel year ;;
  if time.Before end_ date
  then Some (int.add year 1, time.Add end_ time.Nanosecond)
  else Some (year, start).

(** Day offsets of a quarter from the start of its year: the arithmetic of
    [fiscal.Quarter], [long] being the outcome of its 53-week test. *)
Definition quarterOffsets (long : bool) (quarter : Z) : Z * Z :=
  let quarter := if quarter <? 1 then 1 else quarter in
  let quarter := if quarter >? 4 then 4 else quarter in
  let quarter := quarter - 1 in
  let qstart := quarter * 91 in
  let qend := (quarter + 1) * 91 in
  if long
  then (qstart + int.div (quarter + 3) 4 * 7, qend + int.div (quarter + 4) 4 * 7)
  else (qstart, qend).

(** Day offsets of a period: the arithmetic of [fiscal.Period]. *)
Definition periodOffsets (long : bool) (period : Z) : Z * Z :=
  let period := if period <? 1 then 1 else period in
  let period := if period >? 12 then 12 else period in
  let period := period - 1 in
  let pstart := period * 28 + int.div (period + 2) 3 * 7 in
  let pend := (period + 1) * 28 + int.div (period + 3) 3 * 7 in
  if long
  then (pstart + int.div (period + 9) 12 * 7, pend + int.div (period + 10) 12 * 7)
  else (pstart, pend).

(** The range from day [a] to day [b] (exclusive) after [start]. *)
Definition dayRange (start : time.Time) (ab : Z * Z) : time.Time * time.Time :=
  (time.Add start (fst ab * fiscal.Day),
   time.Add (time.Add start (snd ab * fiscal.Day)) (- time.Nanosecond)).

(** Sum of the day counts of a list of ranges. *)
Definition totalDays (rs : list (option (time.Time * time.Time))) : option Z :=
  fold_right (fun r acc => d <- daysOf r ;; a <- acc ;; Some (d + a)) (Some 0) rs.

(** [date] lies in the closed range [r], as the scans test it. *)
Definition contains (r : time.Time * time.Time) (date : time.Time) : bool :=
  negb (time.Before date (fst r)) && negb (time.After date (snd r)).

(** [int(d.Hours()/24)] for a duration [d] of [h] whole hours. *)
Definition hoursToDays (h : Z) : Z :=
  float64.to_int
    (float64.div
       (float64.add (float64.of_int h)
                    (float64.div (float64.of_int 0)
                                 (float64.of_int (60 * 60 * 1000000000))))
       (float64.of_int 24)).

(** The call returned a range that starts a whole number of weeks after the
    anchor and ends one nanosecond before such an instant. *)
Definition wholeWeeks (res : option (time.Time * time.Time)) : Prop :=
  exists r,
    res = Some r
    /\ (fst r - fiscal.first) mod (7 * fiscal.Day) = 0
    /\ (time.Add (snd r) time.Nanosecond - fiscal.first) mod (7 * fiscal.Day) = 0.

(** Three dates of the first autumn of fiscal year 2006. *)
Definition sep26_2005 : time.Time := time.Date 2005 9 26 0 0 0 0.
Definition oct29_2005_last_ns : time.Time := time.Date 2005 10 29 23 59 59 999999999.
Definition dec31_2005_last_ns : time.Time := time.Date 2005 12 31 23 59 59 999999999.

(** * Properties

    ** The calendar: [absDate] inverts [daysBeforeYear] *)

Lemma isLeap_cases Y :
  (time.isLeap Y = true /\ Y mod 4 = 0 /\ (Y mod 100 <> 0 \/ Y mod 400 = 0))
  \/ (time.isLeap Y = false /\ (Y mod 4 <> 0 \/ (Y mod 100 = 0 /\ Y mod 400 <> 0))).
Proof.
  unfold time.isLeap.
  destruct (Z.eqb_spec (Y mod 4) 0), (Z.eqb_spec (Y mod 100) 0), (Z.eqb_spec (Y mod 400) 0); simpl; intuition lia.
Qed.

Lemma daysBeforeYear_succ Y :
  time.daysBeforeYear (Y + 1) = time.daysBeforeYear Y + yearLen Y.
Proof.
  unfold time.daysBeforeYear, yearLen.
  replace (Y + 1 - 1) with Y by lia.
  destruct (isLeap_cases Y) as [(-> & H4 & H)|(-> & H)].
  - Z.div_mod_to_equations; lia.
  - Z.div_mod_to_equations; lia.
Qed.


Lemma div_offset m q r : 0 <= r < m -> (m * q + r) / m = q.
Proof.
  intros Hr. symmetry. apply (Z.div_unique_pos _ _ q r); lia.
Qed.

(** Every year number is [400a + 100b + 4c + e + 1] with digits in range. *)
Lemma year_digits Y :
  exists a b c e, Y = 400 * a + 100 * b + 4 * c + e + 1
                  /\ 0 <= b < 4 /\ 0 <= c < 25 /\ 0 <= e < 4.
Proof.
  exists ((Y - 1) / 400), ((Y - 1) mod 400 / 100), ((Y - 1) mod 100 / 4), ((Y - 1) mod 4).
  Z.div_mod_to_equations; lia.
Qed.

Lemma daysBeforeYear_digits a b c e :
  0 <= b < 4 -> 0 <= c < 25 -> 0 <= e < 4 ->
  time.daysBeforeYear (400 * a + 100 * b + 4 * c + e + 1)
  = 146097 * a + 36524 * b + 1461 * c + 365 * e.
Proof.
  intros Hb Hc He. unfold time.daysBeforeYear. cbv zeta.
  replace (400 * a + 100 * b + 4 * c + e + 1 - 1) with (400 * a + 100 * b + 4 * c + e) by lia.
  replace ((400 * a + 100 * b + 4 * c + e) / 4) with (100 * a + 25 * b + c).
  2:{ replace (400 * a + 100 * b + 4 * c + e) with (4 * (100 * a + 25 * b + c) + e) by lia.
      now rewrite div_offset. }
  replace ((400 * a + 100 * b + 4 * c + e) / 100) with (4 * a + b).
  2:{ replace (400 * a + 100 * b + 4 * c + e) with (100 * (4 * a + b) + (4 * c + e)) by lia.
      rewrite div_offset; lia. }
  replace ((400 * a + 100 * b + 4 * c + e) / 400) with a.
  2:{ replace (400 * a + 100 * b + 4 * c + e) with (400 * a + (100 * b + 4 * c + e)) by lia.
      rewrite div_offset; lia. }
  lia.
Qed.

Lemma isLeap_digits a b c e :
  0 <= b < 4 -> 0 <= c < 25 -> 0 <= e < 4 ->
  time.isLeap (400 * a + 100 * b + 4 * c + e + 1)
  = (e =? 3) && (negb (c =? 24) || (b =? 3)).
Proof.
  intros Hb Hc He. unfold time.isLeap.
  replace ((400 * a + 100 * b + 4 * c + e + 1) mod 4) with ((e + 1) mod 4).
  2:{ replace (400 * a + 100 * b + 4 * c + e + 1) with ((e + 1) + (100 * a + 25 * b + c) * 4) by lia.
      now rewrite Z.mod_add. }
  replace ((400 * a + 100 * b + 4 * c + e + 1) mod 100) with ((4 * c + e + 1) mod 100).
  2:{ replace (400 * a + 100 * b + 4 * c + e + 1) with ((4 * c + e + 1) + (4 * a + b) * 100) by lia.
      now rewrite Z.mod_add. }
  replace ((400 * a + 100 * b + 4 * c + e + 1) mod 400) with ((100 * b + 4 * c + e + 1) mod 400).
  2:{ replace (400 * a + 100 * b + 4 * c + e + 1) with ((100 * b + 4 * c + e + 1) + a * 400) by lia.
      now rewrite Z.mod_add. }
  assert (E : e = 0 \/ e = 1 \/ e = 2 \/ e = 3) by lia.
  assert (B : b = 0 \/ b = 1 \/ b = 2 \/ b = 3) by lia.
  destruct (Z.eqb_spec c 24) as [->|Hc24].
  - destruct E as [->|[->|[->| ->]]], B as [->|[->|[->| ->]]]; reflexivity.
  - destruct E as [->|[->|[->| ->]]]; try reflexivity.
    simpl (3 =? 3). simpl (negb false). cbn [andb orb].
    replace (4 * c + 3 + 1) with (4 * (c + 1)) by lia.
    replace (100 * b + 4 * c + 3 + 1) with (100 * b + 4 * (c + 1)) by lia.
    replace (_ mod 4) with 0 by reflexivity.
    rewrite (Z.mod_small (4 * (c + 1)) 100) by lia.
    destruct (Z.eqb_spec (4 * (c + 1)) 0); [lia|]. reflexivity.
Qed.

Lemma absDate_spec Y k :
  0 <= k < yearLen Y -> time.absDate (time.daysBeforeYear Y + k) = (Y, k).
Proof.
  destruct (year_digits Y) as (a & b & c & e & -> & Hb & Hc & He).
  unfold yearLen. rewrite isLeap_digits, daysBeforeYear_digits by assumption.
  intros Hk.
  assert (Hk' : 0 <= k < 365 \/ (k = 365 /\ e = 3 /\ (c <> 24 \/ b = 3))).
  { destruct (Z.eqb_spec e 3), (Z.eqb_spec c 24), (Z.eqb_spec b 3);
      cbn [andb orb negb] in Hk; lia. }
  clear Hk.
  unfold time.absDate, time.daysPer400Years, time.daysPer100Years, time.daysPer4Years.
  cbv zeta.
  change (365 * 400 + 97) with 146097. change (365 * 100 + 24) with 36524.
  change (365 * 4 + 1) with 1461.
  replace (146097 * a + 36524 * b + 1461 * c + 365 * e + k)
    with (146097 * a + (36524 * b + 1461 * c + 365 * e + k)) by lia.
  rewrite div_offset by lia.
  replace (146097 * a + (36524 * b + 1461 * c + 365 * e + k) - 146097 * a)
    with (36524 * b + 1461 * c + 365 * e + k) by lia.
  set (n100 := (36524 * b + 1461 * c + 365 * e + k) / 36524).
  assert (H100 : n100 - n100 / 4 = b).
  { subst n100.
    destruct (Z.eq_dec (1461 * c + 365 * e + k) 36524) as [E|E].
    - assert (b = 3) by lia. subst b.
      replace (36524 * 3 + 1461 * c + 365 * e + k) with (36524 * 4 + 0) by lia.
      rewrite div_offset by lia. reflexivity.
    - replace (36524 * b + 1461 * c + 365 * e + k)
        with (36524 * b + (1461 * c + 365 * e + k)) by lia.
      rewrite div_offset by lia. rewrite Z.div_small; lia. }
  rewrite H100. clear H100 n100.
  replace (36524 * b + 1461 * c + 365 * e + k - 36524 * b)
    with (1461 * c + (365 * e + k)) by lia.
  rewrite div_offset by lia.
  replace (1461 * c + (365 * e + k) - 1461 * c) with (365 * e + k) by lia.
  set (n1 := (365 * e + k) / 365).
  assert (H1 : n1 - n1 / 4 = e).
  { subst n1. destruct Hk' as [Hk'|(-> & -> & _)].
    - rewrite div_offset by lia. rewrite Z.div_small; lia.
    - reflexivity. }
  rewrite H1. f_equal; lia.
Qed.

(** ** Instants at midnight *)

Lemma absDay_atDay n : time.absDay (atDay n) = n.
Proof.
  unfold time.absDay, atDay. rewrite Z.div_mul by discriminate. lia.
Qed.

Lemma Add_atDay n k : time.Add (atDay n) (k * fiscal.Day) = atDay (n + k).
Proof.
  unfold time.Add, atDay. change fiscal.Day with time.nsPerDay. lia.
Qed.

Lemma Year_atDay Y k :
  0 <= k < yearLen Y -> time.Year (atDay (time.daysBeforeYear Y + k)) = Y.
Proof.
  intros Hk. unfold time.Year. now rewrite absDay_atDay, absDate_spec.
Qed.

Lemma Day_atDay Y k :
  0 <= k < yearLen Y ->
  time.Day (atDay (time.daysBeforeYear Y + k)) = snd (time.monthDay (time.isLeap Y) k).
Proof.
  intros Hk. unfold time.Day. now rewrite absDay_atDay, absDate_spec.
Qed.

(** ** Late September: the dates the fiscal years start and end on *)

Lemma sep25_succ Y : sep25 (Y + 1) = sep25 Y + yearLen (Y + 1).
Proof.
  unfold sep25. rewrite daysBeforeYear_succ. unfold yearLen.
  destruct (time.isLeap Y), (time.isLeap (Y + 1)); lia.
Qed.

Lemma Year_lateSep Y d :
  -2 <= d <= 6 -> time.Year (atDay (sep25 Y + d)) = Y.
Proof.
  intros Hd. unfold sep25. rewrite <- Z.add_assoc.
  apply Year_atDay. unfold yearLen. destruct (time.isLeap Y); lia.
Qed.

Lemma Day_lateSep Y d :
  -2 <= d <= 6 ->
  time.Day (atDay (sep25 Y + d)) = if d <=? 5 then 25 + d else 1.
Proof.
  intros Hd. unfold sep25. rewrite <- Z.add_assoc.
  rewrite Day_atDay by (unfold yearLen; destruct (time.isLeap Y); lia).
  assert (D : d = -2 \/ d = -1 \/ d = 0 \/ d = 1 \/ d = 2 \/ d = 3
              \/ d = 4 \/ d = 5 \/ d = 6) by lia.
  destruct (time.isLeap Y);
    repeat (destruct D as [-> | D]; [reflexivity|]); subst d; reflexivity.
Qed.

Lemma first_lateSep : lateSep 2005 fiscal.first.
Proof. exists 0. split; [lia | reflexivity]. Qed.

(** One turn of the loop, from a start in late September of [Y]: the
    364-day projection falls one or two days earlier in the month; when that
    is before the 25th a week is added. *)
Lemma candidateEnd_atDay Y d :
  0 <= d <= 6 ->
  let d' := d + 364 - yearLen (Y + 1) in
  candidateEnd (atDay (sep25 Y + d))
  = atDay (sep25 (Y + 1) + (if d' <? 0 then d' + 7 else d')).
Proof.
  intros Hd d'. unfold candidateEnd. cbv zeta.
  rewrite Add_atDay.
  replace (sep25 Y + d + 364) with (sep25 (Y + 1) + d')
    by (rewrite sep25_succ; unfold d'; lia).
  assert (Hd' : -2 <= d' <= 5)
    by (unfold d', yearLen; destruct (time.isLeap (Y + 1)); lia).
  rewrite Day_lateSep by lia.
  replace (d' <=? 5) with true by (symmetry; apply Z.leb_le; lia).
  destruct (Z.ltb_spec d' 0), (Z.ltb_spec (25 + d') 25); try lia.
  rewrite Add_atDay. f_equal. lia.
Qed.

Lemma candidateEnd_lateSep Y t :
  lateSep Y t -> lateSep (Y + 1) (candidateEnd t).
Proof.
  intros (d & Hd & ->). rewrite candidateEnd_atDay by assumption. cbv zeta.
  eexists. split; [|reflexivity].
  unfold yearLen. destruct (time.isLeap (Y + 1)), (Z.ltb_spec (d + 364 - 366) 0),
    (Z.ltb_spec (d + 364 - 365) 0); lia.
Qed.

Lemma lateSep_Year Y t : lateSep Y t -> time.Year t = Y.
Proof. intros (d & Hd & ->). apply Year_lateSep. lia. Qed.

Lemma yearStart_S k : yearStart (S k) = candidateEnd (yearStart k).
Proof. unfold yearStart. cbn [Nat.iter nat_rect]. reflexivity. Qed.

Lemma yearStart_lateSep k : lateSep (2005 + Z.of_nat k) (yearStart k).
Proof.
  induction k as [|k IH].
  - apply first_lateSep.
  - replace (2005 + Z.of_nat (S k)) with (2005 + Z.of_nat k + 1) by lia.
    rewrite yearStart_S. now apply candidateEnd_lateSep.
Qed.

(** Each turn of the loop moves the candidate end to the next calendar
    year. *)
Lemma candidateEnd_Year k :
  time.Year (candidateEnd (yearStart k)) = 2006 + Z.of_nat k.
Proof.
  rewrite (lateSep_Year (2005 + Z.of_nat k + 1)); [lia|].
  apply candidateEnd_lateSep, yearStart_lateSep.
Qed.

(** ** The loop of [fiscal.Year] *)

Lemma Year_loop_step fuel year start :
  fiscal.Year_loop (S fuel) year start
  = if time.Year (candidateEnd start) >=? year
    then Some (start, time.Add (candidateEnd start) (- time.Nanosecond))
    else fiscal.Year_loop fuel year (candidateEnd start).
Proof. cbn [fiscal.Year_loop]. unfold candidateEnd. reflexivity. Qed.

(** From the start of fiscal year [2006 + k] the loop makes [n] more turns
    to reach fiscal year [2006 + k + n], and returns on the next one. *)
Lemma Year_loop_run n : forall k fuel,
  (n < fuel)%nat ->
  fiscal.Year_loop fuel (2006 + Z.of_nat (k + n)) (yearStart k)
  = Some (yearStart (k + n),
          time.Add (yearStart (S (k + n))) (- time.Nanosecond)).
Proof.
  induction n as [|n IH]; intros k fuel Hf;
    (destruct fuel as [|fuel]; [lia|]);
    rewrite Year_loop_step, candidateEnd_Year.
  - rewrite Nat.add_0_r, yearStart_S.
    destruct (Z.geb_spec (2006 + Z.of_nat k) (2006 + Z.of_nat k)); [|lia].
    reflexivity.
  - destruct (Z.geb_spec (2006 + Z.of_nat k) (2006 + Z.of_nat (k + S n))); [lia|].
    rewrite <- yearStart_S.
    replace (k + S n)%nat with (S k + n)%nat by lia.
    apply IH. lia.
Qed.

Lemma Year_returns year fuel :
  2006 <= year -> (fuelFor year <= fuel)%nat ->
  fiscal.Year fuel year
  = Some (yearStart (Z.to_nat (year - 2006)),
          time.Add (yearStart (S (Z.to_nat (year - 2006)))) (- time.Nanosecond)).
Proof.
  intros Hy Hf. unfold fiscal.Year, fuelFor in *.
  change fiscal.first with (yearStart 0).
  replace year with (2006 + Z.of_nat (0 + Z.to_nat (year - 2006))) at 1 by lia.
  apply Year_loop_run. lia.
Qed.

(** At or below the anchor year the first candidate end already passes the
    test. *)
Lemma Year_below year fuel :
  year <= 2006 ->
  fiscal.Year (S fuel) year
  = Some (fiscal.first, time.Add (yearStart 1) (- time.Nanosecond)).
Proof.
  intros Hy. unfold fiscal.Year. rewrite Year_loop_step.
  change fiscal.first with (yearStart 0).
  rewrite (candidateEnd_Year 0), <- yearStart_S. cbn [Z.of_nat Z.add].
  destruct (Z.geb_spec 2006 year); [reflexivity | lia].
Qed.

Lemma yearStart_1 : yearStart 1 = time.Add fiscal.first (371 * fiscal.Day).
Proof. vm_compute. reflexivity. Qed.

(** ** Length of a fiscal year *)

(** Days of the fiscal year [2006 + k]. *)
Lemma yearStart_succ k :
  yearStart (S k)
  = time.Add (yearStart k)
      ((if time.Day (time.Add (yearStart k) (364 * fiscal.Day)) <? 25
        then 371 else 364) * fiscal.Day).
Proof.
  rewrite yearStart_S.
  unfold candidateEnd. cbv zeta.
  destruct (time.Day _ <? 25); unfold time.Add; lia.
Qed.

Lemma longYear_364 s :
  longYear s
    (time.Add (time.Add s (364 * fiscal.Day)) (- time.Nanosecond)) = false.
Proof.
  unfold longYear.
  replace (time.Sub _ s) with (364 * fiscal.Day - 1).
  - vm_compute. reflexivity.
  - unfold time.Sub, time.Add.
    replace (s + 364 * fiscal.Day + - time.Nanosecond - s)
      with (364 * fiscal.Day - 1) by (unfold time.Nanosecond; lia).
    reflexivity.
Qed.

Lemma longYear_371 s :
  longYear s
    (time.Add (time.Add s (371 * fiscal.Day)) (- time.Nanosecond)) = true.
Proof.
  unfold longYear.
  replace (time.Sub _ s) with (371 * fiscal.Day - 1).
  - vm_compute. reflexivity.
  - unfold time.Sub, time.Add.
    replace (s + 371 * fiscal.Day + - time.Nanosecond - s)
      with (371 * fiscal.Day - 1) by (unfold time.Nanosecond; lia).
    reflexivity.
Qed.

(** ** [Quarter] and [Period] as day offsets into the year *)

Lemma Quarter_offsets fuel year quarter :
  fiscal.Quarter fuel year quarter
  = '(start, end_) <- fiscal.Year fuel year ;;
    Some (dayRange start (quarterOffsets (longYear start end_) quarter)).
Proof.
  unfold fiscal.Quarter, quarterOffsets, dayRange.
  destruct (fiscal.Year fuel year) as [[start end_]|]; [|reflexivity].
  cbn [bind]. fold (longYear start end_).
  destruct (longYear start end_); reflexivity.
Qed.

Lemma Period_offsets fuel year period :
  fiscal.Period fuel year period
  = '(start, end_) <- fiscal.Year fuel year ;;
    Some (dayRange start (periodOffsets (longYear start end_) period)).
Proof.
  unfold fiscal.Period, periodOffsets, dayRange.
  destruct (fiscal.Year fuel year) as [[start end_]|]; [|reflexivity].
  cbn [bind]. fold (longYear start end_).
  destruct (longYear start end_); reflexivity.
Qed.

(** What [fiscal.Year] returns from the anchor year on: a start in late
    September and a length of 52 or 53 whole weeks, which the 53-week test
    of [Quarter] and [Period] recognises. *)
Lemma Year_shape year fuel :
  2006 <= year -> (fuelFor year <= fuel)%nat ->
  exists start len end_,
    fiscal.Year fuel year = Some (start, end_)
    /\ start = yearStart (Z.to_nat (year - 2006))
    /\ end_ = time.Add (time.Add start (len * fiscal.Day)) (- time.Nanosecond)
    /\ (len = 364 \/ len = 371)
    /\ (len = 371 <-> time.Day (time.Add start (364 * fiscal.Day)) < 25)
    /\ longYear start end_ = (len =? 371).
Proof.
  intros Hy Hf. rewrite Year_returns by assumption.
  set (k := Z.to_nat (year - 2006)).
  exists (yearStart k).
  exists (if time.Day (time.Add (yearStart k) (364 * fiscal.Day)) <? 25
          then 371 else 364).
  eexists. split; [reflexivity|].
  rewrite (yearStart_succ k).
  destruct (Z.ltb_spec (time.Day (time.Add (yearStart k) (364 * fiscal.Day))) 25).
  - rewrite longYear_371. repeat split; auto; lia.
  - rewrite longYear_364. repeat split; auto; lia.
Qed.

Lemma daysOf_year start len :
  daysOf (Some (start,
                time.Add (time.Add start (len * fiscal.Day)) (- time.Nanosecond)))
  = Some len.
Proof.
  unfold daysOf, time.Add. cbn [bind].
  replace (start + len * fiscal.Day + - time.Nanosecond + time.Nanosecond - start)
    with (len * fiscal.Day) by lia.
  rewrite Z.mod_mul, Z.div_mul by discriminate. reflexivity.
Qed.

Lemma daysOf_dayRange start a b :
  daysOf (Some (dayRange start (a, b))) = Some (b - a).
Proof.
  unfold daysOf, dayRange, time.Add. cbn [bind fst snd].
  replace (start + b * fiscal.Day + - time.Nanosecond + time.Nanosecond
           - (start + a * fiscal.Day)) with ((b - a) * fiscal.Day) by lia.
  rewrite Z.mod_mul, Z.div_mul by discriminate. reflexivity.
Qed.

(** Rewrites a call of [Quarter] or [Period] on a year whose bounds are
    known, and evaluates the offsets of a literal index. *)
Ltac eval_offsets :=
  repeat match goal with
  | |- context [quarterOffsets ?b ?i] =>
      let v := eval vm_compute in (quarterOffsets b i) in
      change (quarterOffsets b i) with v
  | |- context [periodOffsets ?b ?i] =>
      let v := eval vm_compute in (periodOffsets b i) in
      change (periodOffsets b i) with v
  end.

Ltac range_arith :=
  eval_offsets; unfold dayRange, time.Add; cbn [fst snd]; lia.

Ltac resolve_with HY HL :=
  rewrite ?Quarter_offsets, ?Period_offsets, HY; cbn [bind];
  rewrite ?HL;
  repeat match goal with
  | |- context [quarterOffsets ?b ?i] =>
      let v := eval vm_compute in (quarterOffsets b i) in
      change (quarterOffsets b i) with v
  | |- context [periodOffsets ?b ?i] =>
      let v := eval vm_compute in (periodOffsets b i) in
      change (periodOffsets b i) with v
  end.

(** * The claims *)

(** C3. From the anchor year on, consecutive fiscal years are contiguous:
    the end of fiscal year [y] plus one nanosecond is the start of fiscal
    year [y + 1]. *)
Theorem years_contiguous y fuel :
  2006 <= y -> (fuelFor (y + 1) <= fuel)%nat ->
  exists s e s' e',
    fiscal.Year fuel y = Some (s, e)
    /\ fiscal.Year fuel (y + 1) = Some (s', e')
    /\ time.Add e time.Nanosecond = s'.
Proof.
  intros Hy Hf.
  assert (Hf' : (fuelFor y <= fuel)%nat) by (unfold fuelFor in *; lia).
  rewrite (Year_returns y), (Year_returns (y + 1)) by (assumption || lia).
  do 4 eexists. repeat split.
  replace (Z.to_nat (y + 1 - 2006)) with (S (Z.to_nat (y - 2006))) by lia.
  unfold time.Add. lia.
Qed.

Lemma years_contiguous_witness :
  exists s e s' e',
    fiscal.Year 8 2012 = Some (s, e)
    /\ fiscal.Year 8 2013 = Some (s', e')
    /\ time.Add e time.Nanosecond = s'.
Proof. apply (years_contiguous 2012 8); [lia | vm_compute; lia]. Defined.

(** C4. From the anchor year on, a fiscal year spans exactly 364 or 371
    days from its start to its end plus one nanosecond, and 371 days exactly
    when the instant 364 days after its start falls on a day of the month
    earlier than the 25th. *)
Theorem year_length y fuel :
  2006 <= y -> (fuelFor y <= fuel)%nat ->
  exists s e,
    fiscal.Year fuel y = Some (s, e)
    /\ (time.Sub (time.Add e time.Nanosecond) s = 364 * fiscal.Day
        \/ time.Sub (time.Add e time.Nanosecond) s = 371 * fiscal.Day)
    /\ (time.Sub (time.Add e time.Nanosecond) s = 371 * fiscal.Day
        <-> time.Day (time.Add s (364 * fiscal.Day)) < 25).
Proof.
  intros Hy Hf.
  destruct (Year_shape y fuel Hy Hf)
    as (s & len & e & HY & _ & -> & Hlen & Hday & _).
  rewrite HY. do 2 eexists. split; [reflexivity|].
  assert (E : time.Sub
                (time.Add (time.Add (time.Add s (len * fiscal.Day))
                                    (- time.Nanosecond)) time.Nanosecond)
                s = len * fiscal.Day).
  { unfold time.Sub, time.Add.
    replace (s + len * fiscal.Day + - time.Nanosecond + time.Nanosecond - s)
      with (len * fiscal.Day) by lia.
    destruct Hlen as [-> | ->]; reflexivity. }
  rewrite E. split.
  - destruct Hlen as [-> | ->]; auto.
  - rewrite <- Hday. destruct Hlen as [-> | ->]; split; intros H;
      try reflexivity; try discriminate H.
Qed.

Lemma year_length_witness :
  exists s e,
    fiscal.Year 7 2012 = Some (s, e)
    /\ (time.Sub (time.Add e time.Nanosecond) s = 364 * fiscal.Day
        \/ time.Sub (time.Add e time.Nanosecond) s = 371 * fiscal.Day)
    /\ (time.Sub (time.Add e time.Nanosecond) s = 371 * fiscal.Day
        <-> time.Day (time.Add s (364 * fiscal.Day)) < 25).
Proof. apply (year_length 2012 7); [lia | vm_compute; lia]. Defined.

(** C5. From the anchor year on, these agree: the year is 371 days long;
    its first quarter is 98 days long; its third period is 35 days long
    instead of 28.  Quarters 2 to 4 are always 91 days.  In a 364-day year
    every quarter is 91 days and the periods run 35, 28, 28 days in each
    quarter; in a 371-day year only the third period differs. *)
Theorem leap_week_placement y fuel :
  2006 <= y -> (fuelFor y <= fuel)%nat ->
  let yd := daysOf (fiscal.Year fuel y) in
  let qd q := daysOf (fiscal.Quarter fuel y q) in
  let pd p := daysOf (fiscal.Period fuel y p) in
  (yd = Some 364 \/ yd = Some 371)
  /\ (yd = Some 371 <-> qd 1 = Some 98)
  /\ (qd 1 = Some 98 <-> pd 3 = Some 35)
  /\ (qd 2 = Some 91 /\ qd 3 = Some 91 /\ qd 4 = Some 91)
  /\ (pd 3 = Some 35 \/ pd 3 = Some 28)
  /\ (yd = Some 364 ->
      map qd [1; 2; 3; 4] = map Some [91; 91; 91; 91]
      /\ map pd [1; 2; 3; 4; 5; 6; 7; 8; 9; 10; 11; 12]
         = map Some [35; 28; 28; 35; 28; 28; 35; 28; 28; 35; 28; 28])
  /\ (yd = Some 371 ->
      map qd [1; 2; 3; 4] = map Some [98; 91; 91; 91]
      /\ map pd [1; 2; 3; 4; 5; 6; 7; 8; 9; 10; 11; 12]
         = map Some [35; 28; 35; 35; 28; 28; 35; 28; 28; 35; 28; 28]).
Proof.
  intros Hy Hf.
  destruct (Year_shape y fuel Hy Hf)
    as (s & len & e & HY & _ & He & Hlen & _ & HL).
  cbv zeta. cbn [map].
  destruct Hlen as [-> | ->]; change (_ =? 371) with false in HL ||
                               change (_ =? 371) with true in HL;
    resolve_with HY HL; rewrite He, daysOf_year, ?daysOf_dayRange;
    repeat (split || intro); try discriminate; auto.
Qed.

Lemma leap_week_placement_witness :
  let yd := daysOf (fiscal.Year 7 2012) in
  let qd q := daysOf (fiscal.Quarter 7 2012 q) in
  let pd p := daysOf (fiscal.Period 7 2012 p) in
  (yd = Some 364 \/ yd = Some 371)
  /\ (yd = Some 371 <-> qd 1 = Some 98)
  /\ (qd 1 = Some 98 <-> pd 3 = Some 35)
  /\ (qd 2 = Some 91 /\ qd 3 = Some 91 /\ qd 4 = Some 91)
  /\ (pd 3 = Some 35 \/ pd 3 = Some 28)
  /\ (yd = Some 364 ->
      map qd [1; 2; 3; 4] = map Some [91; 91; 91; 91]
      /\ map pd [1; 2; 3; 4; 5; 6; 7; 8; 9; 10; 11; 12]
         = map Some [35; 28; 28; 35; 28; 28; 35; 28; 28; 35; 28; 28])
  /\ (yd = Some 371 ->
      map qd [1; 2; 3; 4] = map Some [98; 91; 91; 91]
      /\ map pd [1; 2; 3; 4; 5; 6; 7; 8; 9; 10; 11; 12]
         = map Some [35; 28; 35; 35; 28; 28; 35; 28; 28; 35; 28; 28]).
Proof. apply (leap_week_placement 2012 7); [lia | vm_compute; lia]. Defined.

(** C6. From the anchor year on, the four quarters partition the year and
    the twelve periods partition the quarters: the day counts add up, the
    first and last pieces share the bounds of the whole, and each piece ends
    one nanosecond before the next one starts. *)
Theorem tiling y fuel :
  2006 <= y -> (fuelFor y <= fuel)%nat ->
  exists (Y : time.Time * time.Time) (Q P : Z -> time.Time * time.Time),
    fiscal.Year fuel y = Some Y
    /\ (forall q, fiscal.Quarter fuel y q = Some (Q q))
    /\ (forall p, fiscal.Period fuel y p = Some (P p))
    /\ totalDays (map (fiscal.Quarter fuel y) [1; 2; 3; 4]) = daysOf (Some Y)
    /\ daysOf (Some Y) <> None
    /\ fst (Q 1) = fst Y
    /\ snd (Q 4) = snd Y
    /\ (forall q, 1 <= q <= 3 ->
        time.Add (snd (Q q)) time.Nanosecond = fst (Q (q + 1)))
    /\ (forall q, 1 <= q <= 4 ->
        totalDays (map (fiscal.Period fuel y) [3 * q - 2; 3 * q - 1; 3 * q])
        = daysOf (Some (Q q))
        /\ fst (P (3 * (q - 1) + 1)) = fst (Q q)
        /\ snd (P (3 * q)) = snd (Q q))
    /\ (forall p, 1 <= p <= 11 ->
        time.Add (snd (P p)) time.Nanosecond = fst (P (p + 1))).
Proof.
  intros Hy Hf.
  destruct (Year_shape y fuel Hy Hf)
    as (s & len & e & HY & _ & He & Hlen & _ & HL).
  exists (s, e),
    (fun q => dayRange s (quarterOffsets (len =? 371) q)),
    (fun p => dayRange s (periodOffsets (len =? 371) p)).
  split; [assumption|].
  split; [intros q; now rewrite Quarter_offsets, HY; cbn [bind]; rewrite HL|].
  split; [intros p; now rewrite Period_offsets, HY; cbn [bind]; rewrite HL|].
  assert (Hq : forall q, 1 <= q <= 4 -> q = 1 \/ q = 2 \/ q = 3 \/ q = 4) by lia.
  assert (Hp : forall p, 1 <= p <= 11 ->
                 p = 1 \/ p = 2 \/ p = 3 \/ p = 4 \/ p = 5 \/ p = 6
                 \/ p = 7 \/ p = 8 \/ p = 9 \/ p = 10 \/ p = 11) by lia.
  cbn [map totalDays fold_right].
  destruct Hlen as [-> | ->]; change (_ =? 371) with false in * ||
                               change (_ =? 371) with true in *;
    rewrite He, daysOf_year; cbn [fst snd];
    (split; [resolve_with HY HL; rewrite ?daysOf_dayRange; reflexivity|]);
    (split; [discriminate|]);
    (split; [range_arith|]);
    (split; [reflexivity|]);
    (split; [intros q Hq'; assert (Hq3 : 1 <= q <= 4) by lia;
             destruct (Hq q Hq3) as [-> | [-> | [-> | ->]]]; range_arith|]);
    (split; [intros q Hq'; destruct (Hq q Hq') as [-> | [-> | [-> | ->]]];
             rewrite !Period_offsets, HY; cbn [bind]; rewrite HL;
             eval_offsets; rewrite ?daysOf_dayRange;
             (split; [reflexivity|]); range_arith|]);
    intros p Hp'; destruct (Hp p Hp')
      as [-> | [-> | [-> | [-> | [-> | [-> | [-> | [-> | [-> | [-> | ->]]]]]]]]]];
    range_arith.
Qed.

Lemma tiling_witness :
  exists (Y : time.Time * time.Time) (Q P : Z -> time.Time * time.Time),
    fiscal.Year 2 2007 = Some Y
    /\ (forall q, fiscal.Quarter 2 2007 q = Some (Q q))
    /\ (forall p, fiscal.Period 2 2007 p = Some (P p))
    /\ totalDays (map (fiscal.Quarter 2 2007) [1; 2; 3; 4]) = daysOf (Some Y)
    /\ daysOf (Some Y) <> None
    /\ fst (Q 1) = fst Y
    /\ snd (Q 4) = snd Y
    /\ (forall q, 1 <= q <= 3 ->
        time.Add (snd (Q q)) time.Nanosecond = fst (Q (q + 1)))
    /\ (forall q, 1 <= q <= 4 ->
        totalDays (map (fiscal.Period 2 2007) [3 * q - 2; 3 * q - 1; 3 * q])
        = daysOf (Some (Q q))
        /\ fst (P (3 * (q - 1) + 1)) = fst (Q q)
        /\ snd (P (3 * q)) = snd (Q q))
    /\ (forall p, 1 <= p <= 11 ->
        time.Add (snd (P p)) time.Nanosecond = fst (P (p + 1))).
Proof. apply (tiling 2007 2); [lia | vm_compute; lia]. Defined.

(** C7. From the anchor year on, [Quarter] and [Period] return for every
    integer index, and return what they return for the index clamped to
    [1..4], respectively [1..12]. *)
Theorem index_clamped y i fuel :
  2006 <= y -> (fuelFor y <= fuel)%nat ->
  (exists r, fiscal.Quarter fuel y i = Some r
             /\ fiscal.Quarter fuel y (Z.min (Z.max i 1) 4) = Some r)
  /\ (exists r, fiscal.Period fuel y i = Some r
                /\ fiscal.Period fuel y (Z.min (Z.max i 1) 12) = Some r).
Proof.
  intros Hy Hf.
  destruct (Year_shape y fuel Hy Hf) as (s & len & e & HY & _).
  rewrite !Quarter_offsets, !Period_offsets, HY. cbn [bind].
  split; eexists; (split; [reflexivity|]); do 2 f_equal.
  - unfold quarterOffsets. cbv zeta.
    replace (if Z.min (Z.max i 1) 4 <? 1 then 1 else Z.min (Z.max i 1) 4)
      with (Z.min (Z.max i 1) 4) by (destruct (Z.ltb_spec (Z.min (Z.max i 1) 4) 1); lia).
    replace (if Z.min (Z.max i 1) 4 >? 4 then 4 else Z.min (Z.max i 1) 4)
      with (Z.min (Z.max i 1) 4) by (destruct (Z.gtb_spec (Z.min (Z.max i 1) 4) 4); lia).
    destruct (Z.ltb_spec i 1).
    + replace (Z.min (Z.max i 1) 4) with 1 by lia. reflexivity.
    + destruct (Z.gtb_spec i 4).
      * replace (Z.min (Z.max i 1) 4) with 4 by lia. reflexivity.
      * replace (Z.min (Z.max i 1) 4) with i by lia. reflexivity.
  - unfold periodOffsets. cbv zeta.
    replace (if Z.min (Z.max i 1) 12 <? 1 then 1 else Z.min (Z.max i 1) 12)
      with (Z.min (Z.max i 1) 12) by (destruct (Z.ltb_spec (Z.min (Z.max i 1) 12) 1); lia).
    replace (if Z.min (Z.max i 1) 12 >? 12 then 12 else Z.min (Z.max i 1) 12)
      with (Z.min (Z.max i 1) 12) by (destruct (Z.gtb_spec (Z.min (Z.max i 1) 12) 12); lia).
    destruct (Z.ltb_spec i 1).
    + replace (Z.min (Z.max i 1) 12) with 1 by lia. reflexivity.
    + destruct (Z.gtb_spec i 12).
      * replace (Z.min (Z.max i 1) 12) with 12 by lia. reflexivity.
      * replace (Z.min (Z.max i 1) 12) with i by lia. reflexivity.
Qed.

Lemma index_clamped_witness :
  (exists r, fiscal.Quarter 3 2008 9 = Some r
             /\ fiscal.Quarter 3 2008 (Z.min (Z.max 9 1) 4) = Some r)
  /\ (exists r, fiscal.Period 3 2008 9 = Some r
                /\ fiscal.Period 3 2008 (Z.min (Z.max 9 1) 12) = Some r).
Proof. apply (index_clamped 2008 9 3); [lia | vm_compute; lia]. Defined.

(** C8. The anchor year: [Year 2006] is the anchor and the last nanosecond
    of the 371 days after it, [Quarter 2006 1] the first 98 days,
    [Period 2006 1] the first 35 days, and [Period 2006 3] is 35 days
    long. *)
Theorem anchor_year fuel :
  fiscal.first = time.Date 2005 9 25 0 0 0 0
  /\ fiscal.Year (S fuel) 2006
     = Some (fiscal.first,
             time.Add (time.Add fiscal.first (371 * fiscal.Day)) (- time.Nanosecond))
  /\ fiscal.Quarter (S fuel) 2006 1
     = Some (fiscal.first,
             time.Add (time.Add fiscal.first (98 * fiscal.Day)) (- time.Nanosecond))
  /\ fiscal.Period (S fuel) 2006 1
     = Some (fiscal.first,
             time.Add (time.Add fiscal.first (35 * fiscal.Day)) (- time.Nanosecond))
  /\ daysOf (fiscal.Period (S fuel) 2006 3) = Some 35.
Proof.
  assert (HY : fiscal.Year (S fuel) 2006
               = Some (fiscal.first,
                       time.Add (time.Add fiscal.first (371 * fiscal.Day))
                                (- time.Nanosecond)))
    by (rewrite Year_below, yearStart_1 by lia; reflexivity).
  pose proof (longYear_371 fiscal.first) as HL.
  split; [reflexivity|]. split; [assumption|].
  resolve_with HY HL. rewrite daysOf_dayRange. repeat split.
Qed.

(** C9, as the code has it.  [Year] returns for every year number: from the
    anchor year on after [year - 2005] turns of the loop, the candidate end
    of each turn lying in the next calendar year, so that the year returned
    ends in the calendar year asked for; below the anchor year on the first
    turn. *)
Theorem Year_terminates y fuel :
  (fuelFor y <= fuel)%nat ->
  exists s e,
    fiscal.Year fuel y = Some (s, e)
    /\ (forall k, time.Year (candidateEnd (yearStart (S k)))
                  = time.Year (candidateEnd (yearStart k)) + 1)
    /\ (2006 <= y -> time.Year (time.Add e time.Nanosecond) = y)
    /\ (y < 2006 -> fiscal.Year 1 y = Some (s, e)).
Proof.
  intros Hf.
  assert (Hk : forall k, time.Year (candidateEnd (yearStart (S k)))
                         = time.Year (candidateEnd (yearStart k)) + 1)
    by (intros k; rewrite !candidateEnd_Year; lia).
  destruct (Z.le_gt_cases 2006 y) as [Hy | Hy].
  - rewrite Year_returns by assumption. do 2 eexists.
    split; [reflexivity|]. split; [assumption|]. split; [|lia].
    intros _.
    replace (time.Add (time.Add _ (- time.Nanosecond)) time.Nanosecond)
      with (candidateEnd (yearStart (Z.to_nat (y - 2006))))
      by (rewrite <- yearStart_S; unfold time.Add; lia).
    rewrite candidateEnd_Year. lia.
  - destruct fuel as [|fuel]; [unfold fuelFor in Hf; lia|].
    rewrite !Year_below by lia. do 2 eexists.
    split; [reflexivity|]. split; [assumption|]. split; [lia|reflexivity].
Qed.

Lemma Year_terminates_witness :
  exists s e,
    fiscal.Year 1 1999 = Some (s, e)
    /\ (forall k, time.Year (candidateEnd (yearStart (S k)))
                  = time.Year (candidateEnd (yearStart k)) + 1)
    /\ (2006 <= 1999 -> time.Year (time.Add e time.Nanosecond) = 1999)
    /\ (1999 < 2006 -> fiscal.Year 1 1999 = Some (s, e)).
Proof. apply (Year_terminates 1999 1); vm_compute; lia. Defined.

(** C9 as stated fails below the anchor year: [Year 2005] returns, on the
    first turn of its loop. *)
Lemma Year_2005_returns : ~ (forall fuel, fiscal.Year fuel 2005 = None).
Proof. intros H. specialize (H 1%nat). vm_compute in H. discriminate H. Qed.

(** C10. For every year number up to 2006, negative ones included, [Year]
    returns on the first turn of its loop, with the bounds of [Year 2006]:
    the anchor and the last nanosecond of the 371 days after it. *)
Theorem Year_at_or_below_anchor y fuel :
  y <= 2006 ->
  fiscal.Year 1 y
  = Some (time.Date 2005 9 25 0 0 0 0,
          time.Add (time.Add (time.Date 2005 9 25 0 0 0 0) (371 * fiscal.Day))
                   (- time.Nanosecond))
  /\ fiscal.Year (S fuel) y = fiscal.Year 1 y
  /\ fiscal.Year (S fuel) y = fiscal.Year (S fuel) 2006
  /\ time.Year (time.Add (time.Date 2005 9 25 0 0 0 0) (371 * fiscal.Day)) = 2006.
Proof.
  intros Hy. rewrite !Year_below, yearStart_1 by lia.
  repeat split.
Qed.

Lemma Year_at_or_below_anchor_witness :
  fiscal.Year 1 (-40)
  = Some (time.Date 2005 9 25 0 0 0 0,
          time.Add (time.Add (time.Date 2005 9 25 0 0 0 0) (371 * fiscal.Day))
                   (- time.Nanosecond))
  /\ fiscal.Year 5 (-40) = fiscal.Year 1 (-40)
  /\ fiscal.Year 5 (-40) = fiscal.Year 5 2006
  /\ time.Year (time.Add (time.Date 2005 9 25 0 0 0 0) (371 * fiscal.Day)) = 2006.
Proof. apply (Year_at_or_below_anchor (-40) 4). lia. Defined.

(** ** The classifiers on dates of the anchor year *)

Lemma Year_anchor fuel year :
  year <= 2006 ->
  fiscal.Year (S fuel) year
  = Some (fiscal.first,
          time.Add (time.Add fiscal.first (371 * fiscal.Day)) (- time.Nanosecond)).
Proof. intros Hy. now rewrite Year_below, yearStart_1. Qed.

Lemma Quarter_anchor fuel year i :
  year <= 2006 ->
  fiscal.Quarter (S fuel) year i
  = Some (dayRange fiscal.first (quarterOffsets true i)).
Proof.
  intros Hy. rewrite Quarter_offsets, Year_anchor by assumption.
  cbn [bind]. now rewrite longYear_371.
Qed.

Lemma Period_anchor fuel year i :
  year <= 2006 ->
  fiscal.Period (S fuel) year i
  = Some (dayRange fiscal.first (periodOffsets true i)).
Proof.
  intros Hy. rewrite Period_offsets, Year_anchor by assumption.
  cbn [bind]. now rewrite longYear_371.
Qed.

(** The two scanning classifiers: the fiscal year first, then the scan from
    the seed. *)
Lemma QuarterForDate_eq fuel date :
  fiscal.QuarterForDate fuel date
  = '(year, start) <- yearOf fuel date ;;
    fiscal.scan (fiscal.Quarter fuel) fuel date year
      (1 + int.div (daysSince date start) 98).
Proof.
  unfold fiscal.QuarterForDate, yearOf, daysSince. cbv zeta.
  destruct (fiscal.Year fuel (time.Year date)) as [[s e]|]; [|reflexivity].
  cbn [bind]. destruct (time.Before e date); reflexivity.
Qed.

Lemma PeriodForDate_eq fuel date :
  fiscal.PeriodForDate fuel date
  = '(year, start) <- yearOf fuel date ;;
    fiscal.scan (fiscal.Period fuel) fuel date year
      (1 + int.div (daysSince date start) 35).
Proof.
  unfold fiscal.PeriodForDate, yearOf, daysSince. cbv zeta.
  destruct (fiscal.Year fuel (time.Year date)) as [[s e]|]; [|reflexivity].
  cbn [bind]. destruct (time.Before e date); reflexivity.
Qed.

(** A date of calendar year 2005 is classified against [Year 2005], which
    is fiscal year 2006, and keeps the year number 2005. *)
Lemma yearOf_2005 fuel date :
  time.Year date = 2005 ->
  date <= fiscal.first + 371 * fiscal.Day - 1 ->
  yearOf (S fuel) date = Some (2005, fiscal.first).
Proof.
  intros Hy Hd. unfold yearOf. cbv zeta.
  rewrite Hy, Year_anchor by lia. cbn [bind].
  unfold time.Before, time.Add, time.Nanosecond.
  destruct (Z.ltb_spec (fiscal.first + 371 * fiscal.Day + - (1)) date); [lia|].
  reflexivity.
Qed.

Lemma int_add_small a b :
  int.min <= a + b <= int.max -> int.add a b = a + b.
Proof.
  unfold int.add, int.wrap, int.min, int.max.
  change (2 ^ 63) with 9223372036854775808.
  change (2 ^ 64) with 18446744073709551616.
  intros H. rewrite Z.mod_small; lia.
Qed.

Lemma int_bounds : int.min = -9223372036854775808 /\ int.max = 9223372036854775807.
Proof. split; reflexivity. Qed.

Lemma scan_step resolve n date year i :
  fiscal.scan resolve (S n) date year i
  = r <- resolve year i ;;
    if contains r date then Some (year, i)
    else fiscal.scan resolve n date year (int.add i 1).
Proof.
  cbn [fiscal.scan]. destruct (resolve year i) as [[start end_]|]; reflexivity.
Qed.

(** While every index from [lo] to the largest [int] resolves to a range
    that misses the date, a scan started at or above [lo] does not return
    before its counter overflows. *)
Lemma scan_miss resolve date year lo :
  int.min <= lo ->
  (forall i, lo <= i <= int.max ->
             exists r, resolve year i = Some r /\ contains r date = false) ->
  forall n i, lo <= i -> i + Z.of_nat n <= int.max + 1 ->
              fiscal.scan resolve n date year i = None.
Proof.
  intros Hlo0 Hmiss. induction n as [|n IH]; intros i Hlo Hn; [reflexivity|].
  rewrite scan_step.
  destruct (Hmiss i) as (r & -> & Hr); [lia|]. cbn [bind]. rewrite Hr.
  destruct n as [|n']; [reflexivity|].
  rewrite int_add_small by (destruct int_bounds; lia).
  apply IH; lia.
Qed.

(** When such a scan does return, its counter has wrapped around to the
    smallest [int]. *)
Lemma scan_wrapped resolve date year lo :
  int.min <= lo ->
  (forall i, lo <= i <= int.max ->
             exists r, resolve year i = Some r /\ contains r date = false) ->
  (exists r, resolve year int.min = Some r /\ contains r date = true) ->
  forall n i res, lo <= i <= int.max ->
    fiscal.scan resolve n date year i = Some res -> res = (year, int.min).
Proof.
  intros Hlo0 Hmiss (r0 & Hmin & Hr0).
  induction n as [|n IH]; intros i res Hi; [discriminate|].
  rewrite scan_step.
  destruct (Hmiss i) as (r & -> & Hr); [lia|]. cbn [bind]. rewrite Hr.
  destruct (Z.eq_dec i int.max) as [-> | Hne].
  - change (int.add int.max 1) with int.min.
    destruct n as [|n']; [discriminate|].
    rewrite scan_step, Hmin. cbn [bind]. rewrite Hr0. congruence.
  - rewrite int_add_small by (destruct int_bounds; lia).
    apply IH. lia.
Qed.

Lemma quarterOffsets_late i :
  2 <= i -> 98 <= fst (quarterOffsets true i).
Proof.
  intros Hi. unfold quarterOffsets. cbv zeta.
  destruct (Z.ltb_spec i 1); [lia|].
  destruct (Z.gtb_spec i 4); [vm_compute; discriminate|].
  assert (D : i = 2 \/ i = 3 \/ i = 4) by lia.
  destruct D as [-> | [-> | ->]]; vm_compute; discriminate.
Qed.

Lemma periodOffsets_late long i :
  2 <= i -> 35 <= fst (periodOffsets long i).
Proof.
  intros Hi. unfold periodOffsets. cbv zeta.
  destruct (Z.ltb_spec i 1); [lia|].
  destruct (Z.gtb_spec i 12); [destruct long; vm_compute; discriminate|].
  assert (D : i = 2 \/ i = 3 \/ i = 4 \/ i = 5 \/ i = 6 \/ i = 7 \/ i = 8
              \/ i = 9 \/ i = 10 \/ i = 11 \/ i = 12) by lia.
  destruct long;
    repeat (destruct D as [-> | D]; [vm_compute; discriminate|]);
    subst i; vm_compute; discriminate.
Qed.

Lemma contains_early start ab date :
  date < start + fst ab * fiscal.Day ->
  contains (dayRange start ab) date = false.
Proof.
  intros H. unfold contains, dayRange, time.Before, time.Add. cbn [fst snd].
  destruct (Z.ltb_spec date (start + fst ab * fiscal.Day)); [reflexivity | lia].
Qed.

Lemma Day_pos : 0 < fiscal.Day.
Proof. reflexivity. Qed.

Lemma Year_sep26_2005 : time.Year sep26_2005 = 2005.
Proof. vm_compute. reflexivity. Qed.

Lemma Year_oct29_2005 : time.Year oct29_2005_last_ns = 2005.
Proof. vm_compute. reflexivity. Qed.

Lemma Year_dec31_2005 : time.Year dec31_2005_last_ns = 2005.
Proof. vm_compute. reflexivity. Qed.

Lemma sep26_2005_eq : sep26_2005 = fiscal.first + 1 * fiscal.Day.
Proof. vm_compute. reflexivity. Qed.

Lemma oct29_2005_eq : oct29_2005_last_ns = fiscal.first + 35 * fiscal.Day - 1.
Proof. vm_compute. reflexivity. Qed.

Lemma dec31_2005_eq : dec31_2005_last_ns = fiscal.first + 98 * fiscal.Day - 1.
Proof. vm_compute. reflexivity. Qed.

Lemma seed_sep26_2005 :
  1 + int.div (daysSince sep26_2005 fiscal.first) 98 = 1
  /\ 1 + int.div (daysSince sep26_2005 fiscal.first) 35 = 1.
Proof. split; vm_compute; reflexivity. Qed.

Lemma seed_dec31_2005 :
  1 + int.div (daysSince dec31_2005_last_ns fiscal.first) 98 = 2.
Proof. vm_compute. reflexivity. Qed.

Lemma seed_oct29_2005 :
  1 + int.div (daysSince oct29_2005_last_ns fiscal.first) 35 = 2.
Proof. vm_compute. reflexivity. Qed.

Lemma contains_first_range b date :
  fiscal.first <= date <= fiscal.first + b * fiscal.Day - 1 ->
  contains (dayRange fiscal.first (0, b)) date = true.
Proof.
  intros H. unfold contains, dayRange, time.Before, time.After, time.Add.
  cbn [fst snd]. change time.Nanosecond with 1.
  destruct (Z.ltb_spec date (fiscal.first + 0 * fiscal.Day)); [lia|].
  destruct (Z.gtb_spec date (fiscal.first + b * fiscal.Day + - (1))); [lia|].
  reflexivity.
Qed.

(** C1 at 2005-09-26 00:00:00 UTC.  The date lies strictly inside
    [Year 2006], inside [Quarter 2006 1] and inside [Period 2006 1], yet the
    three classifiers answer with the year number 2005. *)
Theorem classifiers_autumn_2005 fuel :
  (exists s e, fiscal.Year (S fuel) 2006 = Some (s, e)
               /\ time.After sep26_2005 s = true
               /\ time.Before sep26_2005 e = true)
  /\ (exists r, fiscal.Quarter (S fuel) 2006 1 = Some r
                /\ contains r sep26_2005 = true)
  /\ (exists r, fiscal.Period (S fuel) 2006 1 = Some r
                /\ contains r sep26_2005 = true)
  /\ fiscal.YearForDate (S fuel) sep26_2005 = Some 2005
  /\ fiscal.QuarterForDate (S fuel) sep26_2005 = Some (2005, 1)
  /\ fiscal.PeriodForDate (S fuel) sep26_2005 = Some (2005, 1).
Proof.
  pose proof Day_pos as HD. pose proof sep26_2005_eq as E.
  assert (HyearOf : yearOf (S fuel) sep26_2005 = Some (2005, fiscal.first))
    by (apply yearOf_2005; [apply Year_sep26_2005 | lia]).
  destruct seed_sep26_2005 as [Sq Sp].
  split; [|split; [|split; [|split; [|split]]]].
  - rewrite Year_anchor by lia. do 2 eexists. split; [reflexivity|].
    split; vm_compute; reflexivity.
  - rewrite Quarter_anchor by lia. eexists. split; [reflexivity|].
    eval_offsets. apply contains_first_range. lia.
  - rewrite Period_anchor by lia. eexists. split; [reflexivity|].
    eval_offsets. apply contains_first_range. lia.
  - unfold fiscal.YearForDate. rewrite Year_sep26_2005, Year_anchor by lia.
    cbn [bind]. replace (time.Before _ sep26_2005) with false; [reflexivity|].
    vm_compute. reflexivity.
  - rewrite QuarterForDate_eq, HyearOf. cbn [bind].
    rewrite Sq, scan_step, Quarter_anchor by lia. cbn [bind].
    eval_offsets. rewrite contains_first_range by lia. reflexivity.
  - rewrite PeriodForDate_eq, HyearOf. cbn [bind].
    rewrite Sp, scan_step, Period_anchor by lia. cbn [bind].
    eval_offsets. rewrite contains_first_range by lia. reflexivity.
Qed.

(** C2 at 2005-12-31 23:59:59.999999999 UTC (quarters) and at 2005-10-29
    23:59:59.999999999 UTC (periods), both after the anchor.  The date is
    the last nanosecond of quarter 1, respectively period 1, but rounding
    to the hour makes the seed 2: the scan misses every index from 2 to the
    largest [int], so the classifier does not return before its counter
    overflows, and what it returns then carries the smallest [int] as
    index. *)
Theorem seed_overshoots :
  (time.Before dec31_2005_last_ns fiscal.first = false
   /\ time.Before oct29_2005_last_ns fiscal.first = false)
  /\ (forall fuel,
        yearOf (S fuel) dec31_2005_last_ns = Some (2005, fiscal.first)
        /\ (exists r, fiscal.Quarter (S fuel) 2005 1 = Some r
                      /\ contains r dec31_2005_last_ns = true)
        /\ 1 + int.div (daysSince dec31_2005_last_ns fiscal.first) 98 = 2)
  /\ (forall fuel, Z.of_nat fuel <= int.max - 1 ->
                   fiscal.QuarterForDate fuel dec31_2005_last_ns = None)
  /\ (forall fuel res,
        fiscal.QuarterForDate fuel dec31_2005_last_ns = Some res ->
        res = (2005, int.min))
  /\ (forall fuel,
        yearOf (S fuel) oct29_2005_last_ns = Some (2005, fiscal.first)
        /\ (exists r, fiscal.Period (S fuel) 2005 1 = Some r
                      /\ contains r oct29_2005_last_ns = true)
        /\ 1 + int.div (daysSince oct29_2005_last_ns fiscal.first) 35 = 2)
  /\ (forall fuel, Z.of_nat fuel <= int.max - 1 ->
                   fiscal.PeriodForDate fuel oct29_2005_last_ns = None)
  /\ (forall fuel res,
        fiscal.PeriodForDate fuel oct29_2005_last_ns = Some res ->
        res = (2005, int.min)).
Proof.
  pose proof Day_pos as HD.
  pose proof dec31_2005_eq as Eq. pose proof oct29_2005_eq as Ep.
  destruct int_bounds as [Imin Imax].
  assert (Yq : forall fuel,
             yearOf (S fuel) dec31_2005_last_ns = Some (2005, fiscal.first))
    by (intros fuel; apply yearOf_2005; [apply Year_dec31_2005 | lia]).
  assert (Yp : forall fuel,
             yearOf (S fuel) oct29_2005_last_ns = Some (2005, fiscal.first))
    by (intros fuel; apply yearOf_2005; [apply Year_oct29_2005 | lia]).
  assert (Mq : forall fuel i, 2 <= i <= int.max ->
             exists r, fiscal.Quarter (S fuel) 2005 i = Some r
                       /\ contains r dec31_2005_last_ns = false).
  { intros fuel i Hi. rewrite Quarter_anchor by lia. eexists.
    split; [reflexivity|]. apply contains_early.
    pose proof (quarterOffsets_late i). nia. }
  assert (Mp : forall fuel i, 2 <= i <= int.max ->
             exists r, fiscal.Period (S fuel) 2005 i = Some r
                       /\ contains r oct29_2005_last_ns = false).
  { intros fuel i Hi. rewrite Period_anchor by lia. eexists.
    split; [reflexivity|]. apply contains_early.
    pose proof (periodOffsets_late true i). nia. }
  assert (Wq : forall fuel,
             exists r, fiscal.Quarter (S fuel) 2005 int.min = Some r
                       /\ contains r dec31_2005_last_ns = true).
  { intros fuel. rewrite Quarter_anchor by lia. eexists.
    split; [reflexivity|]. eval_offsets. apply contains_first_range. lia. }
  assert (Wp : forall fuel,
             exists r, fiscal.Period (S fuel) 2005 int.min = Some r
                       /\ contains r oct29_2005_last_ns = true).
  { intros fuel. rewrite Period_anchor by lia. eexists.
    split; [reflexivity|]. eval_offsets. apply contains_first_range. lia. }
  split; [split; vm_compute; reflexivity|].
  split.
  { intros fuel. split; [apply Yq|]. split; [|apply seed_dec31_2005].
    rewrite Quarter_anchor by lia. eexists. split; [reflexivity|].
    eval_offsets. apply contains_first_range. lia. }
  split.
  { intros [|fuel] Hf; [reflexivity|].
    rewrite QuarterForDate_eq, Yq. cbn [bind].
    rewrite seed_dec31_2005.
    apply (scan_miss _ _ _ 2); [lia | apply Mq | lia | lia]. }
  split.
  { intros [|fuel] res; [discriminate|].
    rewrite QuarterForDate_eq, Yq. cbn [bind].
    rewrite seed_dec31_2005.
    apply (scan_wrapped _ _ _ 2); [lia | apply Mq | apply Wq | lia]. }
  split.
  { intros fuel. split; [apply Yp|]. split; [|apply seed_oct29_2005].
    rewrite Period_anchor by lia. eexists. split; [reflexivity|].
    eval_offsets. apply contains_first_range. lia. }
  split.
  { intros [|fuel] Hf; [reflexivity|].
    rewrite PeriodForDate_eq, Yp. cbn [bind].
    rewrite seed_oct29_2005.
    apply (scan_miss _ _ _ 2); [lia | apply Mp | lia | lia]. }
  intros [|fuel] res; [discriminate|].
  rewrite PeriodForDate_eq, Yp. cbn [bind].
  rewrite seed_oct29_2005.
  apply (scan_wrapped _ _ _ 2); [lia | apply Mp | apply Wp | lia].
Qed.

(** ** The classifiers away from the two defects

    From fiscal year 2007 on (or for dates of calendar year 2006 and
    later), and away from the last half hour of period 1 and of the first
    quarter of a 53-week year, the classifiers agree with the resolvers. *)

Lemma absDay_bounds t a b :
  atDay a <= t < atDay b -> a <= time.absDay t < b.
Proof.
  unfold atDay, time.absDay. intros [Ha Hb].
  assert (HD : 0 < time.nsPerDay) by reflexivity.
  split.
  - enough (a - time.unixEpochDays <= t / time.nsPerDay) by lia.
    apply Z.div_le_lower_bound; lia.
  - enough (t / time.nsPerDay < b - time.unixEpochDays) by lia.
    apply Z.div_lt_upper_bound; lia.
Qed.

Lemma atDay_mono a b : a <= b -> atDay a <= atDay b.
Proof.
  unfold atDay. intros H. apply Z.mul_le_mono_nonneg_r; [discriminate | lia].
Qed.

(** The calendar year of any instant between two first days of January. *)
Lemma Year_between Y t :
  atDay (time.daysBeforeYear Y) <= t < atDay (time.daysBeforeYear (Y + 1)) ->
  time.Year t = Y.
Proof.
  intros H. apply absDay_bounds in H. rewrite daysBeforeYear_succ in H.
  unfold time.Year.
  replace (time.absDay t)
    with (time.daysBeforeYear Y + (time.absDay t - time.daysBeforeYear Y)) by lia.
  rewrite absDate_spec by lia. reflexivity.
Qed.

(** An instant of the fiscal year that starts in late September of [Y]
    belongs to calendar year [Y] or [Y + 1]. *)
Lemma Year_in_fiscal_year Y s e t :
  lateSep Y s -> lateSep (Y + 1) e -> s <= t < e ->
  time.Year t = Y \/ time.Year t = Y + 1.
Proof.
  intros (d & Hd & ->) (d' & Hd' & ->) Ht.
  pose proof (daysBeforeYear_succ Y) as HY.
  pose proof (daysBeforeYear_succ (Y + 1)) as HY1.
  replace (Y + 1 + 1) with (Y + 2) in HY1 by lia.
  assert (L : 365 <= yearLen Y <= 366 /\ 365 <= yearLen (Y + 1) <= 366)
    by (unfold yearLen; destruct (time.isLeap Y), (time.isLeap (Y + 1)); lia).
  assert (S1 : time.daysBeforeYear Y + 267 <= sep25 Y <= time.daysBeforeYear Y + 268)
    by (unfold sep25; destruct (time.isLeap Y); lia).
  assert (S2 : time.daysBeforeYear (Y + 1) + 267 <= sep25 (Y + 1)
               <= time.daysBeforeYear (Y + 1) + 268)
    by (unfold sep25; destruct (time.isLeap (Y + 1)); lia).
  destruct (Z.lt_ge_cases t (atDay (time.daysBeforeYear (Y + 1)))) as [Hlt | Hge].
  - left. apply Year_between. split; [|assumption].
    etransitivity; [|apply Ht]. apply atDay_mono. lia.
  - right. apply Year_between. split; [assumption|].
    eapply Z.lt_le_trans; [apply Ht|]. apply atDay_mono.
    replace (Y + 1 + 1) with (Y + 2) by lia. lia.
Qed.

(** The start of a fiscal year lies in the calendar year before the one its
    end lies in. *)
Lemma yearStart_lt k : yearStart k < yearStart (S k).
Proof.
  rewrite yearStart_succ. pose proof Day_pos. unfold time.Add.
  destruct (time.Day _ <? 25); lia.
Qed.

Lemma yearOf_agrees k t fuel :
  (fuelFor (2006 + Z.of_nat k) <= fuel)%nat ->
  2006 + Z.of_nat k <= int.max ->
  yearStart k <= t < yearStart (S k) ->
  (1 <= k)%nat \/ time.Year t = 2006 ->
  yearOf fuel t = Some (2006 + Z.of_nat k, yearStart k)
  /\ fiscal.YearForDate fuel t = Some (2006 + Z.of_nat k).
Proof.
  intros Hf Hmax Ht Hk.
  destruct int_bounds as [Imin Imax].
  assert (Hcal : time.Year t = 2005 + Z.of_nat k \/ time.Year t = 2005 + Z.of_nat k + 1).
  { apply (Year_in_fiscal_year _ (yearStart k) (yearStart (S k))); [| |assumption].
    - apply yearStart_lateSep.
    - replace (2005 + Z.of_nat k + 1) with (2005 + Z.of_nat (S k)) by lia.
      apply yearStart_lateSep. }
  unfold yearOf, fiscal.YearForDate. cbv zeta.
  destruct Hcal as [Hcal | Hcal]; rewrite Hcal.
  - destruct k as [|k]; [lia|].
    rewrite Year_returns by (unfold fuelFor in *; lia).
    replace (Z.to_nat (2005 + Z.of_nat (S k) - 2006)) with k by lia.
    cbn [bind]. unfold time.Before, time.Add, time.Nanosecond.
    destruct (Z.ltb_spec (yearStart (S k) + - (1)) t); [|lia].
    rewrite int_add_small by lia.
    split; [f_equal; f_equal | f_equal]; lia.
  - replace (2005 + Z.of_nat k + 1) with (2006 + Z.of_nat k) by lia.
    rewrite Year_returns by (assumption || lia).
    replace (Z.to_nat (2006 + Z.of_nat k - 2006)) with k by lia.
    cbn [bind]. unfold time.Before, time.Add, time.Nanosecond.
    destruct (Z.ltb_spec (yearStart (S k) + - (1)) t); [lia|].
    split; reflexivity.
Qed.

(** *** Days since the start of the year

    On a whole number of hours the binary64 computation is exact; it is
    checked on every count of hours a fiscal year can hold. *)

Lemma hoursToDays_table :
  forallb (fun h => hoursToDays h =? h / 24) (map Z.of_nat (seq 0 (Z.to_nat 8905))) = true.
Proof. vm_compute. reflexivity. Qed.

Lemma hoursToDays_exact h : 0 <= h <= 8904 -> hoursToDays h = h / 24.
Proof.
  intros Hh. pose proof hoursToDays_table as T.
  rewrite forallb_forall in T. apply Z.eqb_eq, T.
  apply in_map_iff. exists (Z.to_nat h). split; [lia|].
  apply in_seq. lia.
Qed.

Lemma Hours_whole h :
  float64.to_int (float64.div (time.Hours (h * time.Hour)) (float64.of_int 24))
  = hoursToDays h.
Proof.
  unfold time.Hours, hoursToDays. cbv zeta.
  rewrite Z.quot_mul, Z.rem_mul by discriminate. reflexivity.
Qed.

(** The hours [d.Round(time.Hour)] counts, for a duration within a year. *)
Lemma Round_Hour x :
  0 <= x < 371 * fiscal.Day ->
  time.Round x time.Hour = ((x + 1800000000000) / 3600000000000) * time.Hour.
Proof.
  intros Hx. unfold time.Round.
  change (time.Hour <=? 0) with false. cbv iota zeta.
  destruct (Z.ltb_spec x 0); [lia|].
  rewrite Z.rem_mod_nonneg by (lia || reflexivity).
  change fiscal.Day with 86400000000000 in Hx.
  change time.Hour with 3600000000000.
  destruct (Z.ltb_spec (x mod 3600000000000 + x mod 3600000000000) 3600000000000).
  - Z.div_mod_to_equations. lia.
  - unfold time.saturate.
    change time.minDuration with (-9223372036854775808).
    change time.maxDuration with 9223372036854775807.
    destruct (Z.ltb_spec (x + 3600000000000 - x mod 3600000000000)
                         (-9223372036854775808));
      [Z.div_mod_to_equations; lia|].
    destruct (Z.ltb_spec 9223372036854775807
                         (x + 3600000000000 - x mod 3600000000000));
      [Z.div_mod_to_equations; lia|].
    Z.div_mod_to_equations. lia.
Qed.

Lemma daysSince_exact date start :
  0 <= date - start < 371 * fiscal.Day ->
  daysSince date start = (date - start + 1800000000000) / fiscal.Day.
Proof.
  intros Hx. unfold daysSince.
  replace (time.Sub date start) with (date - start).
  2:{ unfold time.Sub, time.saturate.
      change time.minDuration with (-9223372036854775808).
      change time.maxDuration with 9223372036854775807.
      change fiscal.Day with 86400000000000 in Hx.
      destruct (Z.ltb_spec (date - start) (-9223372036854775808)); [lia|].
      destruct (Z.ltb_spec 9223372036854775807 (date - start)); [lia|].
      reflexivity. }
  rewrite Round_Hour, Hours_whole by assumption.
  change fiscal.Day with 86400000000000 in *.
  rewrite hoursToDays_exact by (Z.div_mod_to_equations; lia).
  Z.div_mod_to_equations. lia.
Qed.

(** *** The forward scan, when the seed does not overshoot *)

Lemma scan_hit resolve date year q :
  q <= int.max ->
  (exists r, resolve year q = Some r /\ contains r date = true) ->
  forall n i,
    int.min <= i <= q -> (Z.to_nat (q - i) < n)%nat ->
    (forall j, i <= j < q ->
               exists r, resolve year j = Some r /\ contains r date = false) ->
    fiscal.scan resolve n date year i = Some (year, q).
Proof.
  intros Hq (r & Hr & Hc). induction n as [|n IH]; intros i Hi Hn Hmiss; [lia|].
  rewrite scan_step. destruct (Z.eq_dec i q) as [-> | Hne].
  - rewrite Hr. cbn [bind]. now rewrite Hc.
  - destruct (Hmiss i) as (r' & -> & Hc'); [lia|]. cbn [bind]. rewrite Hc'.
    rewrite int_add_small by lia.
    apply IH; [lia | lia |]. intros j Hj. apply Hmiss. lia.
Qed.

Lemma contains_late start ab date :
  start + snd ab * fiscal.Day <= date ->
  contains (dayRange start ab) date = false.
Proof.
  intros H. unfold contains, dayRange, time.After, time.Add. cbn [fst snd].
  change time.Nanosecond with 1.
  destruct (Z.gtb_spec date (start + snd ab * fiscal.Day + - (1))); [|lia].
  apply andb_false_r.
Qed.

Lemma contains_dayRange start ab date :
  contains (dayRange start ab) date = true ->
  start + fst ab * fiscal.Day <= date <= start + snd ab * fiscal.Day - 1.
Proof.
  unfold contains, dayRange, time.Before, time.After, time.Add. cbn [fst snd].
  change time.Nanosecond with 1.
  destruct (Z.ltb_spec date (start + fst ab * fiscal.Day)); [discriminate|].
  destruct (Z.gtb_spec date (start + snd ab * fiscal.Day + - (1)));
    [discriminate|]. lia.
Qed.

Ltac index_cases i :=
  match goal with
  | H : 1 <= i <= 4 |- _ =>
      assert (i = 1 \/ i = 2 \/ i = 3 \/ i = 4) as
        [-> | [-> | [-> | ->]]] by lia
  | H : 1 <= i <= 12 |- _ =>
      assert (i = 1 \/ i = 2 \/ i = 3 \/ i = 4 \/ i = 5 \/ i = 6 \/ i = 7
              \/ i = 8 \/ i = 9 \/ i = 10 \/ i = 11 \/ i = 12) as
        [-> | [-> | [-> | [-> | [-> | [-> | [-> | [-> | [-> | [-> | [-> | ->]]]]]]]]]]]
        by lia
  end.

(** Quarters and periods follow one another inside the year. *)
Lemma quarterOffsets_ordered long i j :
  1 <= i <= 4 -> 1 <= j <= 4 -> i < j ->
  snd (quarterOffsets long i) <= fst (quarterOffsets long j).
Proof.
  intros Hi Hj Hij. index_cases i; index_cases j; try lia;
    destruct long; vm_compute; discriminate.
Qed.

Lemma periodOffsets_ordered long i j :
  1 <= i <= 12 -> 1 <= j <= 12 -> i < j ->
  snd (periodOffsets long i) <= fst (periodOffsets long j).
Proof.
  intros Hi Hj Hij. index_cases i; index_cases j; try lia;
    destruct long; vm_compute; discriminate.
Qed.

Lemma quarterOffsets_in_year long q :
  1 <= q <= 4 ->
  0 <= fst (quarterOffsets long q)
  /\ snd (quarterOffsets long q) <= (if long then 371 else 364).
Proof.
  intros Hq. index_cases q; destruct long; vm_compute; split; discriminate.
Qed.

Lemma periodOffsets_in_year long p :
  1 <= p <= 12 ->
  0 <= fst (periodOffsets long p)
  /\ snd (periodOffsets long p) <= (if long then 371 else 364).
Proof.
  intros Hp. index_cases p; destruct long; vm_compute; split; discriminate.
Qed.

(** The seeds: with [x] the nanoseconds since the start of the year. *)
Lemma quarter_seed long q x :
  1 <= q <= 4 ->
  fst (quarterOffsets long q) * 86400000000000 <= x
    <= snd (quarterOffsets long q) * 86400000000000 - 1 ->
  (q = 1 -> long = true -> x + 1800000000000 < 98 * 86400000000000) ->
  1 <= 1 + (x + 1800000000000) / 86400000000000 / 98 <= q.
Proof.
  intros Hq Hx Hover.
  index_cases q; destruct long; vm_compute fst in Hx; vm_compute snd in Hx;
    try specialize (Hover eq_refl eq_refl);
    Z.div_mod_to_equations; lia.
Qed.

Lemma period_seed long p x :
  1 <= p <= 12 ->
  fst (periodOffsets long p) * 86400000000000 <= x
    <= snd (periodOffsets long p) * 86400000000000 - 1 ->
  (p = 1 -> x + 1800000000000 < 35 * 86400000000000) ->
  1 <= 1 + (x + 1800000000000) / 86400000000000 / 35 <= p.
Proof.
  intros Hp Hx Hover.
  index_cases p; destruct long; vm_compute fst in Hx; vm_compute snd in Hx;
    try specialize (Hover eq_refl);
    Z.div_mod_to_equations; lia.
Qed.

(** *** Agreement of the classifiers with the resolvers *)

Lemma Add_eq t d : time.Add t d = t + d.
Proof. reflexivity. Qed.

Lemma Nanosecond_eq : time.Nanosecond = 1.
Proof. reflexivity. Qed.

Lemma Minute_eq : time.Minute = 60000000000.
Proof. reflexivity. Qed.

Lemma Day_eq : fiscal.Day = 86400000000000.
Proof. reflexivity. Qed.

Lemma Some_pair_inj {A B : Type} (a a' : A) (b b' : B) :
  Some (a, b) = Some (a', b') -> a = a' /\ b = b'.
Proof. intros H. inversion H. split; reflexivity. Qed.

Lemma Some_inj {A : Type} (a a' : A) : Some a = Some a' -> a = a'.
Proof. intros H. inversion H. reflexivity. Qed.

(** The bounds of a fiscal year in plain arithmetic. *)
Lemma last_ns_arith (x s len : Z) :
  time.Add (time.Add s (len * fiscal.Day)) (- time.Nanosecond)
  = time.Add x (- time.Nanosecond) ->
  time.Add (time.Add s (len * fiscal.Day)) (- time.Nanosecond)
  = s + len * 86400000000000 - 1
  /\ x = s + len * 86400000000000.
Proof.
  unfold time.Add, time.Nanosecond. rewrite Day_eq. lia.
Qed.

Lemma Year_arith y fuel :
  2006 <= y -> (fuelFor y <= fuel)%nat ->
  exists s len,
    s = yearStart (Z.to_nat (y - 2006))
    /\ fiscal.Year fuel y = Some (s, s + len * 86400000000000 - 1)
    /\ yearStart (S (Z.to_nat (y - 2006))) = s + len * 86400000000000
    /\ (len = 364 \/ len = 371)
    /\ longYear s (s + len * 86400000000000 - 1) = (len =? 371).
Proof.
  intros Hy Hf.
  destruct (Year_shape y fuel Hy Hf)
    as (s & len & e & HY & Hs & He & Hlen & _ & HL).
  pose proof (Year_returns y fuel Hy Hf) as HY'.
  rewrite HY in HY'. apply Some_pair_inj in HY' as [_ He'].
  rewrite He in He'. apply last_ns_arith in He' as [E Hend].
  rewrite E in He. subst e.
  exists s, len. repeat split; assumption.
Qed.

Lemma yearOf_in_year y fuel t s len :
  2006 <= y <= int.max -> (fuelFor y <= fuel)%nat ->
  s = yearStart (Z.to_nat (y - 2006)) ->
  yearStart (S (Z.to_nat (y - 2006))) = s + len * 86400000000000 ->
  s <= t < s + len * 86400000000000 ->
  2007 <= y \/ time.Year t = 2006 ->
  yearOf fuel t = Some (y, s).
Proof.
  intros Hy Hf Hs Hend Ht Hcal.
  destruct (yearOf_agrees (Z.to_nat (y - 2006)) t fuel) as [H _].
  - replace (2006 + Z.of_nat (Z.to_nat (y - 2006))) with y by lia. assumption.
  - lia.
  - lia.
  - lia.
  - rewrite H, Hs. do 2 f_equal. lia.
Qed.

(** [YearForDate] returns [y] for every instant of fiscal year [y], from
    2007 on, and in fiscal year 2006 for the instants of calendar year
    2006. *)
Theorem YearForDate_agrees y t fuel s e :
  2006 <= y <= int.max -> (fuelFor y <= fuel)%nat ->
  fiscal.Year fuel y = Some (s, e) ->
  s <= t <= e ->
  2007 <= y \/ time.Year t = 2006 ->
  fiscal.YearForDate fuel t = Some y.
Proof.
  intros Hy Hf HY Ht Hcal.
  destruct (Year_arith y fuel (proj1 Hy) Hf) as (s' & len & Hs & HY' & Hend & _).
  rewrite HY in HY'. apply Some_pair_inj in HY' as [-> ->].
  destruct (yearOf_agrees (Z.to_nat (y - 2006)) t fuel) as [_ H].
  - replace (2006 + Z.of_nat (Z.to_nat (y - 2006))) with y by lia. assumption.
  - lia.
  - lia.
  - lia.
  - rewrite H. f_equal. lia.
Qed.

Lemma YearForDate_agrees_witness :
  fiscal.YearForDate 6 (time.Date 2011 2 3 4 5 6 7) = Some 2011.
Proof.
  apply (YearForDate_agrees 2011 (time.Date 2011 2 3 4 5 6 7) 6
           1285459200000000000 1316908799999999999).
  - destruct int_bounds as [_ ->]. lia.
  - vm_compute. lia.
  - vm_compute. reflexivity.
  - vm_compute. split; discriminate.
  - left. lia.
Defined.

(** [QuarterForDate] returns [(y, q)] for every instant of quarter [q] of
    fiscal year [y], except in the last half hour of the first quarter of a
    53-week year (and in calendar year 2005). *)
Theorem QuarterForDate_agrees y q t fuel r :
  2006 <= y <= int.max -> (fuelFor y + 4 <= fuel)%nat ->
  1 <= q <= 4 ->
  fiscal.Quarter fuel y q = Some r -> contains r t = true ->
  2007 <= y \/ time.Year t = 2006 ->
  (q = 1 -> daysOf (Some r) = Some 98 -> t + 30 * time.Minute <= snd r) ->
  fiscal.QuarterForDate fuel t = Some (y, q).
Proof.
  intros Hy Hf Hq HQ Hin Hcal Hover.
  assert (Hf' : (fuelFor y <= fuel)%nat) by lia.
  destruct (Year_arith y fuel (proj1 Hy) Hf')
    as (s & len & Hs & HY & Hend & Hlen & HL).
  set (long := len =? 371) in *.
  assert (Hlong : (if long then 371 else 364) = len)
    by (subst long; destruct Hlen as [-> | ->]; reflexivity).
  assert (HQi : forall i, fiscal.Quarter fuel y i
                          = Some (dayRange s (quarterOffsets long i)))
    by (intros i; rewrite Quarter_offsets, HY; cbn [bind]; now rewrite HL).
  rewrite HQi in HQ. apply Some_inj in HQ. subst r.
  pose proof (contains_dayRange _ _ _ Hin) as Ht.
  pose proof (quarterOffsets_in_year long q Hq) as [Ha Hb].
  rewrite Hlong in Hb. rewrite Day_eq in Ht.
  assert (HyearOf : yearOf fuel t = Some (y, s))
    by (apply (yearOf_in_year y fuel t s len); try assumption; nia).
  rewrite QuarterForDate_eq, HyearOf. cbn [bind].
  rewrite daysSince_exact by (rewrite Day_eq; destruct Hlen; nia).
  rewrite Day_eq.
  unfold int.div. rewrite Z.quot_div_nonneg
    by (try apply Z.div_pos; lia).
  assert (Hseed : 1 <= 1 + (t - s + 1800000000000) / 86400000000000 / 98 <= q).
  { apply (quarter_seed long); [assumption | lia |].
    intros -> Hl. rewrite Hl in Hover.
    change (quarterOffsets true 1) with (0, 98) in Hover.
    rewrite daysOf_dayRange in Hover. specialize (Hover eq_refl eq_refl).
    clear - Hover. revert Hover. generalize s. intros s0 Hover.
    unfold dayRange, time.Add in Hover. cbn [fst snd] in Hover.
    rewrite Minute_eq, Nanosecond_eq, Day_eq in Hover. lia. }
  destruct int_bounds as [Imin Imax].
  apply scan_hit.
  - lia.
  - rewrite HQi. eexists. split; [reflexivity | assumption].
  - lia.
  - lia.
  - intros j Hj. rewrite HQi. eexists. split; [reflexivity|].
    apply contains_late.
    pose proof (quarterOffsets_ordered long j q).
    rewrite Day_eq. nia.
Qed.

Lemma QuarterForDate_agrees_witness :
  fiscal.QuarterForDate 10 (time.Date 2011 2 3 4 5 6 7) = Some (2011, 2).
Proof.
  apply (QuarterForDate_agrees 2011 2 (time.Date 2011 2 3 4 5 6 7) 10
           (1293321600000000000, 1301183999999999999)).
  - destruct int_bounds as [_ ->]. lia.
  - vm_compute. lia.
  - lia.
  - vm_compute. reflexivity.
  - vm_compute. reflexivity.
  - left. lia.
  - intros H. discriminate H.
Defined.

(** [PeriodForDate] returns [(y, p)] for every instant of period [p] of
    fiscal year [y], except in the last half hour of period 1 (and in
    calendar year 2005). *)
Theorem PeriodForDate_agrees y p t fuel r :
  2006 <= y <= int.max -> (fuelFor y + 12 <= fuel)%nat ->
  1 <= p <= 12 ->
  fiscal.Period fuel y p = Some r -> contains r t = true ->
  2007 <= y \/ time.Year t = 2006 ->
  (p = 1 -> t + 30 * time.Minute <= snd r) ->
  fiscal.PeriodForDate fuel t = Some (y, p).
Proof.
  intros Hy Hf Hp HP Hin Hcal Hover.
  assert (Hf' : (fuelFor y <= fuel)%nat) by lia.
  destruct (Year_arith y fuel (proj1 Hy) Hf')
    as (s & len & Hs & HY & Hend & Hlen & HL).
  set (long := len =? 371) in *.
  assert (Hlong : (if long then 371 else 364) = len)
    by (subst long; destruct Hlen as [-> | ->]; reflexivity).
  assert (HPi : forall i, fiscal.Period fuel y i
                          = Some (dayRange s (periodOffsets long i)))
    by (intros i; rewrite Period_offsets, HY; cbn [bind]; now rewrite HL).
  rewrite HPi in HP. apply Some_inj in HP. subst r.
  pose proof (contains_dayRange _ _ _ Hin) as Ht.
  pose proof (periodOffsets_in_year long p Hp) as [Ha Hb].
  rewrite Hlong in Hb. rewrite Day_eq in Ht.
  assert (HyearOf : yearOf fuel t = Some (y, s))
    by (apply (yearOf_in_year y fuel t s len); try assumption; nia).
  rewrite PeriodForDate_eq, HyearOf. cbn [bind].
  rewrite daysSince_exact by (rewrite Day_eq; destruct Hlen; nia).
  rewrite Day_eq.
  unfold int.div. rewrite Z.quot_div_nonneg
    by (try apply Z.div_pos; lia).
  assert (Hseed : 1 <= 1 + (t - s + 1800000000000) / 86400000000000 / 35 <= p).
  { apply (period_seed long); [assumption | lia |].
    intros ->. specialize (Hover eq_refl).
    assert (E : snd (periodOffsets long 1) = 35) by (destruct long; reflexivity).
    clear - Hover E. revert Hover E.
    generalize (periodOffsets long 1). generalize s. intros s0 ab Hover E.
    unfold dayRange, time.Add in Hover. cbn [fst snd] in Hover.
    rewrite Minute_eq, Nanosecond_eq, Day_eq in Hover. lia. }
  destruct int_bounds as [Imin Imax].
  apply scan_hit.
  - lia.
  - rewrite HPi. eexists. split; [reflexivity | assumption].
  - lia.
  - lia.
  - intros j Hj. rewrite HPi. eexists. split; [reflexivity|].
    apply contains_late.
    pose proof (periodOffsets_ordered long j p).
    rewrite Day_eq. nia.
Qed.

Lemma PeriodForDate_agrees_witness :
  fiscal.PeriodForDate 18 (time.Date 2011 2 3 4 5 6 7) = Some (2011, 5).
Proof.
  apply (PeriodForDate_agrees 2011 5 (time.Date 2011 2 3 4 5 6 7) 18
           (1296345600000000000, 1298764799999999999)).
  - destruct int_bounds as [_ ->]. lia.
  - vm_compute. lia.
  - lia.
  - vm_compute. reflexivity.
  - vm_compute. reflexivity.
  - left. lia.
  - intros H. discriminate H.
Defined.

(** *** The seed overshoot, in every year

    In the last half hour of period 1, and of the first quarter of a
    53-week year, the seed is 2 and the scan finds nothing up to the largest
    [int]. *)






(** * Further properties of the fiscal calendar

    ** The calendar: every day number has its year *)

Lemma absDate_sound d :
  exists Y k, time.absDate d = (Y, k)
              /\ d = time.daysBeforeYear Y + k /\ 0 <= k < yearLen Y.
Proof.
  unfold time.absDate, time.daysPer400Years, time.daysPer100Years,
    time.daysPer4Years. cbv zeta.
  change (365 * 400 + 97) with 146097. change (365 * 100 + 24) with 36524.
  change (365 * 4 + 1) with 1461.
  set (a := d / 146097).
  set (r := d - 146097 * a).
  assert (Hr : 0 <= r < 146097) by (subst r a; Z.div_mod_to_equations; lia).
  set (n100 := r / 36524).
  set (b := n100 - n100 / 4).
  assert (Hb : 0 <= b < 4 /\ (n100 <= 3 /\ b = n100 \/ n100 = 4 /\ b = 3))
    by (subst b n100; Z.div_mod_to_equations; lia).
  set (r2 := r - 36524 * b).
  assert (Hr2 : 0 <= r2 <= 36524 /\ (r2 = 36524 -> b = 3))
    by (subst r2; destruct Hb as (Hb & [[H1 H2] | [H1 H2]]); subst n100;
        Z.div_mod_to_equations; lia).
  set (c := r2 / 1461).
  assert (Hc : 0 <= c < 25) by (subst c; Z.div_mod_to_equations; lia).
  set (r3 := r2 - 1461 * c).
  assert (Hr3 : 0 <= r3 < 1461) by (subst r3 c; Z.div_mod_to_equations; lia).
  set (n1 := r3 / 365).
  set (e := n1 - n1 / 4).
  assert (He : 0 <= e < 4 /\ (n1 <= 3 /\ e = n1 \/ n1 = 4 /\ e = 3))
    by (subst e n1; Z.div_mod_to_equations; lia).
  set (k := r3 - 365 * e).
  assert (Hk : 0 <= k <= 365 /\ (k = 365 -> e = 3 /\ r3 = 1460))
    by (subst k; destruct He as (He & [[H1 H2] | [H1 H2]]); subst n1;
        Z.div_mod_to_equations; lia).
  exists (400 * a + 100 * b + 4 * c + e + 1), k.
  split; [reflexivity|].
  rewrite daysBeforeYear_digits by lia.
  split; [subst k r3 r2 r; lia|].
  unfold yearLen. rewrite isLeap_digits by lia.
  destruct (Z.eq_dec k 365) as [Hk365 | Hk365].
  - destruct Hk as [_ Hk]. destruct (Hk Hk365) as [-> Hr3'].
    cbn [Z.eqb Pos.eqb andb].
    destruct (Z.eqb_spec c 24) as [Hc24 | Hc24]; cbn [negb orb].
    + assert (b = 3) by (apply Hr2; subst r3; lia).
      subst b. rewrite H. cbn. lia.
    + lia.
  - destruct ((e =? 3) && (negb (c =? 24) || (b =? 3))); lia.
Qed.

Lemma daysBeforeYear_mono Y n :
  time.daysBeforeYear Y + 365 * Z.of_nat n <= time.daysBeforeYear (Y + Z.of_nat n).
Proof.
  induction n as [|n IH];
    [replace (Y + Z.of_nat 0) with Y by lia; lia|].
  replace (Y + Z.of_nat (S n)) with (Y + Z.of_nat n + 1) by lia.
  rewrite daysBeforeYear_succ. unfold yearLen.
  destruct (time.isLeap (Y + Z.of_nat n)); lia.
Qed.

Lemma daysBeforeYear_le Y Y' :
  Y <= Y' -> time.daysBeforeYear Y <= time.daysBeforeYear Y'.
Proof.
  intros H. pose proof (daysBeforeYear_mono Y (Z.to_nat (Y' - Y))) as M.
  replace (Y + Z.of_nat (Z.to_nat (Y' - Y))) with Y' in M by lia. lia.
Qed.

Lemma atDay_absDay t :
  atDay (time.absDay t) <= t < atDay (time.absDay t + 1).
Proof.
  unfold atDay, time.absDay.
  change time.nsPerDay with 86400000000000.
  Z.div_mod_to_equations. lia.
Qed.

(** The year [t.Year()] is the one whose days hold [t]. *)
Lemma Year_sound t :
  atDay (time.daysBeforeYear (time.Year t)) <= t
  < atDay (time.daysBeforeYear (time.Year t + 1)).
Proof.
  unfold time.Year.
  destruct (absDate_sound (time.absDay t)) as (Y & k & -> & Hd & Hk).
  cbn [fst]. rewrite daysBeforeYear_succ.
  pose proof (atDay_absDay t) as [Hlo Hhi].
  split.
  - etransitivity; [|apply Hlo]. apply atDay_mono. lia.
  - eapply Z.lt_le_trans; [apply Hhi|]. apply atDay_mono. lia.
Qed.

Lemma atDay_lt a b : atDay a < atDay b -> a < b.
Proof.
  unfold atDay. change time.nsPerDay with 86400000000000. lia.
Qed.

Lemma Year_le t Y :
  t < atDay (time.daysBeforeYear (Y + 1)) -> time.Year t <= Y.
Proof.
  intros H. destruct (Year_sound t) as [Hlo _].
  destruct (Z.le_gt_cases (time.Year t) Y) as [|Hgt]; [assumption|].
  assert (time.daysBeforeYear (Y + 1) <= time.daysBeforeYear (time.Year t))
    by (apply daysBeforeYear_le; lia).
  assert (atDay (time.daysBeforeYear (Y + 1))
          <= atDay (time.daysBeforeYear (time.Year t)))
    by now apply atDay_mono.
  lia.
Qed.

(** The day of the month depends on the day only. *)
Lemma Day_absDay t n : time.absDay t = n -> time.Day t = time.Day (atDay n).
Proof.
  intros <-. unfold time.Day. now rewrite absDay_atDay.
Qed.

Lemma Year_absDay t n : time.absDay t = n -> time.Year t = time.Year (atDay n).
Proof.
  intros <-. unfold time.Year. now rewrite absDay_atDay.
Qed.

(** [sep25] is the day of [time.Date(Y, time.September, 25, ...)]. *)
Lemma Date_sep25 Y :
  time.Date Y time.September 25 0 0 0 0 = atDay (sep25 Y).
Proof.
  unfold time.Date, atDay, sep25. cbv zeta.
  change (nth (Z.to_nat (time.September - 1)) time.daysBefore 0) with 243.
  change (time.September >=? 3) with true. rewrite andb_true_r.
  destruct (time.isLeap Y); lia.
Qed.

(** ** Where a fiscal year lies in the calendar *)

Lemma lateSep_last_ns Y d :
  0 <= d <= 6 ->
  time.Year (atDay (sep25 Y + d) - 1) = Y
  /\ 24 <= time.Day (atDay (sep25 Y + d) - 1) <= 30.
Proof.
  intros Hd.
  assert (HA : time.absDay (atDay (sep25 Y + d) - 1) = sep25 Y + (d - 1)).
  { pose proof (absDay_bounds (atDay (sep25 Y + d) - 1)
                  (sep25 Y + (d - 1)) (sep25 Y + d)) as B.
    assert (atDay (sep25 Y + (d - 1)) < atDay (sep25 Y + d))
      by (unfold atDay; change time.nsPerDay with 86400000000000; lia).
    lia. }
  split.
  - rewrite (Year_absDay _ _ HA). apply Year_lateSep. lia.
  - rewrite (Day_absDay _ _ HA), Day_lateSep by lia.
    destruct (Z.leb_spec (d - 1) 5); lia.
Qed.

Lemma Add_last_ns x : time.Add x (- time.Nanosecond) = x - 1.
Proof. reflexivity. Qed.

Lemma Add_ns x : time.Add (x - 1) time.Nanosecond = x.
Proof. unfold time.Add, time.Nanosecond. lia. Qed.

(** Fiscal year [y] starts at midnight UTC of a day from 25 September to
    1 October of calendar year [y - 1], and ends one nanosecond before
    midnight of such a day of calendar year [y]: its first instant lies in
    calendar year [y - 1], its last one in calendar year [y], on a day of
    the month from the 24th to the 30th. *)
Theorem Year_in_calendar y fuel :
  2006 <= y -> (fuelFor y <= fuel)%nat ->
  exists s e d d',
    fiscal.Year fuel y = Some (s, e)
    /\ 0 <= d <= 6 /\ 0 <= d' <= 6
    /\ s = time.Add (time.Date (y - 1) time.September 25 0 0 0 0)
                    (d * fiscal.Day)
    /\ time.Add e time.Nanosecond
       = time.Add (time.Date y time.September 25 0 0 0 0) (d' * fiscal.Day)
    /\ time.Year s = y - 1
    /\ time.Year e = y
    /\ 24 <= time.Day e <= 30.
Proof.
  intros Hy Hf. rewrite Year_returns by assumption.
  set (k := Z.to_nat (y - 2006)).
  destruct (yearStart_lateSep k) as (d & Hd & Hs).
  destruct (yearStart_lateSep (S k)) as (d' & Hd' & He).
  replace (2005 + Z.of_nat k) with (y - 1) in Hs by lia.
  replace (2005 + Z.of_nat (S k)) with y in He by lia.
  rewrite Hs, He, Add_last_ns.
  exists (atDay (sep25 (y - 1) + d)), (atDay (sep25 y + d') - 1), d, d'.
  rewrite Add_ns, !Date_sep25, !Add_atDay.
  destruct (lateSep_last_ns y d' Hd') as [HYe HDe].
  repeat split; try assumption; try lia.
  apply Year_lateSep. lia.
Qed.

Lemma Year_in_calendar_witness :
  exists s e d d',
    fiscal.Year 7 2012 = Some (s, e)
    /\ 0 <= d <= 6 /\ 0 <= d' <= 6
    /\ s = time.Add (time.Date (2012 - 1) time.September 25 0 0 0 0)
                    (d * fiscal.Day)
    /\ time.Add e time.Nanosecond
       = time.Add (time.Date 2012 time.September 25 0 0 0 0) (d' * fiscal.Day)
    /\ time.Year s = 2012 - 1
    /\ time.Year e = 2012
    /\ 24 <= time.Day e <= 30.
Proof. apply (Year_in_calendar 2012 7); [lia | vm_compute; lia]. Defined.

(** ** Fuel *)

Lemma Year_loop_more_fuel fuel : forall year start r,
  fiscal.Year_loop fuel year start = Some r ->
  fiscal.Year_loop (S fuel) year start = Some r.
Proof.
  induction fuel as [|fuel IH]; intros year start r H; [discriminate|].
  rewrite Year_loop_step in H. rewrite Year_loop_step.
  destruct (time.Year (candidateEnd start) >=? year); [assumption|].
  now apply IH.
Qed.

Lemma Year_more_fuel fuel fuel' year r :
  (fuel <= fuel')%nat ->
  fiscal.Year fuel year = Some r -> fiscal.Year fuel' year = Some r.
Proof.
  unfold fiscal.Year. intros Hle H.
  induction Hle as [|m Hle IH]; [assumption|].
  now apply Year_loop_more_fuel.
Qed.

(** Whatever fuel lets [Year] return, it returns the same bounds. *)
Lemma Year_Some year fuel r :
  2006 <= year -> fiscal.Year fuel year = Some r ->
  r = (yearStart (Z.to_nat (year - 2006)),
       yearStart (S (Z.to_nat (year - 2006))) - 1).
Proof.
  intros Hy H.
  apply (Year_more_fuel fuel (fuel + fuelFor year)) in H; [|lia].
  rewrite Year_returns in H by (assumption || lia).
  rewrite Add_last_ns in H. now apply Some_inj in H.
Qed.

(** ** The fiscal years partition the time from the anchor on *)

Lemma contains_spec s e t : contains (s, e) t = true <-> s <= t <= e.
Proof.
  unfold contains, time.Before, time.After. cbn [fst snd].
  destruct (Z.ltb_spec t s), (Z.gtb_spec t e); cbn; split; intros Hc;
    try discriminate; try reflexivity; lia.
Qed.

Lemma yearStart_le k n : yearStart k <= yearStart (k + n).
Proof.
  induction n as [|n IH]; [now rewrite Nat.add_0_r|].
  replace (k + S n)%nat with (S (k + n)) by lia.
  pose proof (yearStart_lt (k + n)). lia.
Qed.

Lemma yearStart_grows n :
  fiscal.first + 364 * 86400000000000 * Z.of_nat n <= yearStart n.
Proof.
  induction n as [|n IH]; [change (yearStart 0) with fiscal.first; lia|].
  rewrite yearStart_succ. unfold time.Add. rewrite Day_eq.
  destruct (time.Day _ <? 25); lia.
Qed.

Lemma year_of_instant_aux t n :
  fiscal.first <= t < yearStart n ->
  exists k, yearStart k <= t < yearStart (S k).
Proof.
  induction n as [|n IH]; intros Ht.
  - change (yearStart 0) with fiscal.first in Ht. lia.
  - destruct (Z.le_gt_cases (yearStart n) t) as [Hle | Hgt].
    + exists n. lia.
    + apply IH. lia.
Qed.

(** Fiscal years follow one another: a later fiscal year starts after an
    earlier one has ended. *)
Theorem years_ordered y y' fuel fuel' r r' :
  2006 <= y -> y < y' ->
  fiscal.Year fuel y = Some r -> fiscal.Year fuel' y' = Some r' ->
  time.Before (snd r) (fst r') = true.
Proof.
  intros Hy Hlt H H'.
  apply Year_Some in H; [|assumption]. apply Year_Some in H'; [|lia].
  subst r r'. cbn [fst snd]. unfold time.Before. apply Z.ltb_lt.
  pose proof (yearStart_le (S (Z.to_nat (y - 2006)))
                (Z.to_nat (y' - 2006) - S (Z.to_nat (y - 2006)))) as M.
  replace (S (Z.to_nat (y - 2006))
           + (Z.to_nat (y' - 2006) - S (Z.to_nat (y - 2006))))%nat
    with (Z.to_nat (y' - 2006)) in M by lia.
  lia.
Qed.

Lemma years_ordered_witness :
  time.Before (snd (1285459200000000000, 1316908799999999999))
              (fst (1348963200000000000, 1380412799999999999)) = true.
Proof.
  apply (years_ordered 2011 2013 6 8); try lia; vm_compute; reflexivity.
Defined.

(** Every instant from the anchor on lies in the range of exactly one
    fiscal year. *)
Theorem year_of_instant t :
  fiscal.first <= t ->
  exists y,
    2006 <= y
    /\ (forall fuel, (fuelFor y <= fuel)%nat ->
          exists r, fiscal.Year fuel y = Some r /\ contains r t = true)
    /\ (forall y' fuel r,
          2006 <= y' -> fiscal.Year fuel y' = Some r -> contains r t = true ->
          y' = y).
Proof.
  intros Ht.
  set (n := Z.to_nat ((t - fiscal.first) / (364 * 86400000000000) + 1)).
  assert (Hn : t < yearStart n).
  { pose proof (yearStart_grows n) as G. subst n.
    rewrite Z2Nat.id in G by (Z.div_mod_to_equations; lia).
    Z.div_mod_to_equations. lia. }
  destruct (year_of_instant_aux t n (conj Ht Hn)) as (k & Hk).
  exists (2006 + Z.of_nat k). split; [lia|]. split.
  - intros fuel Hf. rewrite Year_returns by (assumption || lia).
    replace (Z.to_nat (2006 + Z.of_nat k - 2006)) with k by lia.
    eexists. split; [reflexivity|].
    rewrite Add_last_ns. apply contains_spec. lia.
  - intros y' fuel r Hy' HY Hin.
    apply Year_Some in HY; [|assumption]. subst r.
    apply contains_spec in Hin.
    set (k' := Z.to_nat (y' - 2006)) in *.
    enough (k' = k) by lia.
    destruct (Nat.lt_trichotomy k' k) as [Hlt | [Heq | Hgt]]; [|assumption|].
    + pose proof (yearStart_le (S k') (k - S k')) as M.
      replace (S k' + (k - S k'))%nat with k in M by lia. lia.
    + pose proof (yearStart_le (S k) (k' - S k)) as M.
      replace (S k + (k' - S k))%nat with k' in M by lia. lia.
Qed.

Lemma year_of_instant_witness :
  exists y,
    2006 <= y
    /\ (forall fuel, (fuelFor y <= fuel)%nat ->
          exists r, fiscal.Year fuel y = Some r
                    /\ contains r (time.Date 2011 2 3 4 5 6 7) = true)
    /\ (forall y' fuel r,
          2006 <= y' -> fiscal.Year fuel y' = Some r ->
          contains r (time.Date 2011 2 3 4 5 6 7) = true ->
          y' = y).
Proof.
  apply (year_of_instant (time.Date 2011 2 3 4 5 6 7)).
  vm_compute. discriminate.
Defined.

(** ** Whole weeks *)

Lemma yearStart_weeks k :
  (yearStart k - fiscal.first) mod (7 * 86400000000000) = 0.
Proof.
  induction k as [|k IH]; [change (yearStart 0) with fiscal.first;
                           now rewrite Z.sub_diag|].
  rewrite yearStart_succ. unfold time.Add. rewrite Day_eq.
  apply Z.mod_divide in IH; [|discriminate]. destruct IH as [m Hm].
  apply Z.mod_divide; [discriminate|].
  destruct (time.Day _ <? 25).
  - exists (m + 53). lia.
  - exists (m + 52). lia.
Qed.

Lemma quarterOffsets_weeks long i :
  exists a b, quarterOffsets long i = (7 * a, 7 * b).
Proof.
  unfold quarterOffsets. cbv zeta.
  destruct (Z.ltb_spec i 1).
  - destruct long; [exists 0, 14 | exists 0, 13]; reflexivity.
  - destruct (Z.gtb_spec i 4).
    + destruct long; [exists 40, 53 | exists 39, 52]; reflexivity.
    + assert (D : i = 1 \/ i = 2 \/ i = 3 \/ i = 4) by lia.
      destruct D as [-> | [-> | [-> | ->]]]; destruct long;
        match goal with
        | |- exists a b, ?t = _ =>
            let v := eval vm_compute in t in
            match v with
            | (?x, ?y) =>
                let a := eval vm_compute in (x / 7) in
                let b := eval vm_compute in (y / 7) in
                exists a, b; reflexivity
            end
        end.
Qed.

Lemma periodOffsets_weeks long i :
  exists a b, periodOffsets long i = (7 * a, 7 * b).
Proof.
  unfold periodOffsets. cbv zeta.
  destruct (Z.ltb_spec i 1).
  - destruct long; exists 0, 5; reflexivity.
  - destruct (Z.gtb_spec i 12).
    + destruct long; [exists 49, 53 | exists 48, 52]; reflexivity.
    + assert (D : i = 1 \/ i = 2 \/ i = 3 \/ i = 4 \/ i = 5 \/ i = 6 \/ i = 7
                  \/ i = 8 \/ i = 9 \/ i = 10 \/ i = 11 \/ i = 12) by lia.
      repeat (destruct D as [-> | D]); try subst i; destruct long;
        match goal with
        | |- exists a b, ?t = _ =>
            let v := eval vm_compute in t in
            match v with
            | (?x, ?y) =>
                let a := eval vm_compute in (x / 7) in
                let b := eval vm_compute in (y / 7) in
                exists a, b; reflexivity
            end
        end.
Qed.

Lemma weeks_range s ab a b :
  (s - fiscal.first) mod (7 * 86400000000000) = 0 ->
  ab = (7 * a, 7 * b) ->
  (fst (dayRange s ab) - fiscal.first) mod (7 * fiscal.Day) = 0
  /\ (time.Add (snd (dayRange s ab)) time.Nanosecond - fiscal.first)
       mod (7 * fiscal.Day) = 0.
Proof.
  intros Hs ->. unfold dayRange, time.Add, time.Nanosecond. cbn [fst snd].
  rewrite Day_eq.
  apply Z.mod_divide in Hs; [|discriminate]. destruct Hs as [m Hm].
  split; apply Z.mod_divide; try discriminate.
  - exists (m + a). lia.
  - exists (m + b). lia.
Qed.

(** From the anchor year on, every fiscal year, every quarter and every
    period, whatever index is asked for, starts a whole number of weeks
    after the anchor and ends one nanosecond before such an instant. *)
Theorem whole_weeks y i fuel :
  2006 <= y -> (fuelFor y <= fuel)%nat ->
  wholeWeeks (fiscal.Year fuel y)
  /\ wholeWeeks (fiscal.Quarter fuel y i)
  /\ wholeWeeks (fiscal.Period fuel y i).
Proof.
  intros Hy Hf. unfold wholeWeeks.
  destruct (Year_shape y fuel Hy Hf)
    as (s & len & e & HY & Hs & He & Hlen & _ & HL).
  pose proof (yearStart_weeks (Z.to_nat (y - 2006))) as W. rewrite <- Hs in W.
  split; [|split].
  - rewrite HY. eexists. split; [reflexivity|].
    replace (s, e) with (dayRange s (7 * 0, 7 * (len / 7))).
    + now apply (weeks_range s _ 0 (len / 7)).
    + unfold dayRange. cbn [fst snd]. rewrite He.
      replace (7 * (len / 7)) with len
        by (destruct Hlen as [-> | ->]; reflexivity).
      f_equal. unfold time.Add. lia.
  - rewrite Quarter_offsets, HY. cbn [bind]. eexists. split; [reflexivity|].
    destruct (quarterOffsets_weeks (longYear s e) i) as (a & b & E).
    now apply (weeks_range s _ a b).
  - rewrite Period_offsets, HY. cbn [bind]. eexists. split; [reflexivity|].
    destruct (periodOffsets_weeks (longYear s e) i) as (a & b & E).
    now apply (weeks_range s _ a b).
Qed.

Lemma whole_weeks_witness :
  wholeWeeks (fiscal.Year 7 2012)
  /\ wholeWeeks (fiscal.Quarter 7 2012 3)
  /\ wholeWeeks (fiscal.Period 7 2012 3).
Proof. apply (whole_weeks 2012 3 7); [lia | vm_compute; lia]. Defined.

(** ** Periods inside quarters *)

(** From the anchor year on, period [p] lies inside quarter [(p + 2) / 3]
    of the same fiscal year. *)
Theorem period_in_quarter y p fuel :
  2006 <= y -> (fuelFor y <= fuel)%nat -> 1 <= p <= 12 ->
  exists rp rq,
    fiscal.Period fuel y p = Some rp
    /\ fiscal.Quarter fuel y (int.div (p + 2) 3) = Some rq
    /\ fst rq <= fst rp /\ snd rp <= snd rq.
Proof.
  intros Hy Hf Hp.
  destruct (Year_shape y fuel Hy Hf)
    as (s & len & e & HY & _ & _ & Hlen & _ & HL).
  rewrite Quarter_offsets, Period_offsets, HY. cbn [bind].
  do 2 eexists. split; [reflexivity|]. split; [reflexivity|].
  pose proof Day_pos as HD. rewrite HL.
  index_cases p; destruct Hlen as [-> | ->];
    change (364 =? 371) with false; change (371 =? 371) with true;
    match goal with
    | |- context [int.div ?a ?b] =>
        let v := eval vm_compute in (int.div a b) in
        change (int.div a b) with v
    end;
    range_arith.
Qed.

Lemma period_in_quarter_witness :
  exists rp rq,
    fiscal.Period 7 2012 8 = Some rp
    /\ fiscal.Quarter 7 2012 (int.div (8 + 2) 3) = Some rq
    /\ fst rq <= fst rp /\ snd rp <= snd rq.
Proof.
  apply (period_in_quarter 2012 8 7); [lia | vm_compute; lia | lia].
Defined.

(** ** The resolvers below the anchor year *)

Lemma quarterOffsets_all long i :
  exists j, 1 <= j <= 4 /\ quarterOffsets long i = quarterOffsets long j.
Proof.
  destruct (Z.ltb_spec i 1) as [H1 | H1].
  - exists 1. split; [lia|]. unfold quarterOffsets. cbv zeta.
    destruct (Z.ltb_spec i 1); [reflexivity | lia].
  - destruct (Z.gtb_spec i 4) as [H4 | H4].
    + exists 4. split; [lia|]. unfold quarterOffsets. cbv zeta.
      destruct (Z.ltb_spec i 1); [lia|].
      destruct (Z.gtb_spec i 4); [reflexivity | lia].
    + exists i. split; [lia | reflexivity].
Qed.

Lemma periodOffsets_all long i :
  exists j, 1 <= j <= 12 /\ periodOffsets long i = periodOffsets long j.
Proof.
  destruct (Z.ltb_spec i 1) as [H1 | H1].
  - exists 1. split; [lia|]. unfold periodOffsets. cbv zeta.
    destruct (Z.ltb_spec i 1); [reflexivity | lia].
  - destruct (Z.gtb_spec i 12) as [H4 | H4].
    + exists 12. split; [lia|]. unfold periodOffsets. cbv zeta.
      destruct (Z.ltb_spec i 1); [lia|].
      destruct (Z.gtb_spec i 12); [reflexivity | lia].
    + exists i. split; [lia | reflexivity].
Qed.

(** For a year number up to 2006, [Quarter] and [Period] return what they
    return for 2006: the quarters and periods of the anchor year. *)
Theorem resolvers_below_anchor y i fuel :
  y <= 2006 ->
  (exists r, fiscal.Quarter (S fuel) y i = Some r
             /\ fiscal.Quarter (S fuel) 2006 i = Some r
             /\ fiscal.first <= fst r
             /\ snd r < fiscal.first + 371 * fiscal.Day)
  /\ (exists r, fiscal.Period (S fuel) y i = Some r
                /\ fiscal.Period (S fuel) 2006 i = Some r
                /\ fiscal.first <= fst r
                /\ snd r < fiscal.first + 371 * fiscal.Day).
Proof.
  intros Hy. rewrite !Quarter_anchor, !Period_anchor by lia.
  pose proof Day_pos as HD.
  split; eexists; (split; [reflexivity|]); (split; [reflexivity|]).
  - assert (B : 0 <= fst (quarterOffsets true i)
                /\ snd (quarterOffsets true i) <= 371).
    { destruct (quarterOffsets_all true i) as (j & Hj & ->).
      apply (quarterOffsets_in_year true j Hj). }
    revert B. generalize (quarterOffsets true i). intros ab B.
    unfold dayRange, time.Add, time.Nanosecond. cbn [fst snd]. nia.
  - assert (B : 0 <= fst (periodOffsets true i)
                /\ snd (periodOffsets true i) <= 371).
    { destruct (periodOffsets_all true i) as (j & Hj & ->).
      apply (periodOffsets_in_year true j Hj). }
    revert B. generalize (periodOffsets true i). intros ab B.
    unfold dayRange, time.Add, time.Nanosecond. cbn [fst snd]. nia.
Qed.

Lemma resolvers_below_anchor_witness :
  (exists r, fiscal.Quarter 1 1999 3 = Some r
             /\ fiscal.Quarter 1 2006 3 = Some r
             /\ fiscal.first <= fst r
             /\ snd r < fiscal.first + 371 * fiscal.Day)
  /\ (exists r, fiscal.Period 1 1999 3 = Some r
                /\ fiscal.Period 1 2006 3 = Some r
                /\ fiscal.first <= fst r
                /\ snd r < fiscal.first + 371 * fiscal.Day).
Proof. apply (resolvers_below_anchor 1999 3 0). lia. Defined.

(** ** What the scanning classifiers return *)

Lemma scan_sound resolve date year : forall n i res,
  fiscal.scan resolve n date year i = Some res ->
  fst res = year
  /\ exists r, resolve year (snd res) = Some r /\ contains r date = true.
Proof.
  induction n as [|n IH]; intros i res H; [discriminate|].
  rewrite scan_step in H.
  destruct (resolve year i) as [r|] eqn:Hr; [|discriminate].
  cbn [bind] in H. destruct (contains r date) eqn:Hc.
  - apply Some_inj in H. subst res. cbn [fst snd]. split; [reflexivity|].
    exists r. split; assumption.
  - now apply IH in H.
Qed.

(** Whenever [QuarterForDate] or [PeriodForDate] returns, for any date, the
    quarter or period it names (through the clamping of [Quarter] and
    [Period]) is one whose range contains the date. *)
Theorem classifiers_sound fuel date y i :
  (fiscal.QuarterForDate fuel date = Some (y, i) ->
   exists r, fiscal.Quarter fuel y i = Some r /\ contains r date = true)
  /\ (fiscal.PeriodForDate fuel date = Some (y, i) ->
      exists r, fiscal.Period fuel y i = Some r /\ contains r date = true).
Proof.
  split; intros H.
  - rewrite QuarterForDate_eq in H.
    destruct (yearOf fuel date) as [[year start]|]; [|discriminate].
    cbn [bind] in H. apply scan_sound in H. cbn [fst snd] in H.
    destruct H as [<- H]. exact H.
  - rewrite PeriodForDate_eq in H.
    destruct (yearOf fuel date) as [[year start]|]; [|discriminate].
    cbn [bind] in H. apply scan_sound in H. cbn [fst snd] in H.
    destruct H as [<- H]. exact H.
Qed.

Lemma classifiers_sound_witness :
  (exists r, fiscal.Quarter 10 2011 2 = Some r
             /\ contains r (time.Date 2011 2 3 4 5 6 7) = true)
  /\ (exists r, fiscal.Period 10 2011 5 = Some r
                /\ contains r (time.Date 2011 2 3 4 5 6 7) = true).
Proof.
  split.
  - apply (proj1 (classifiers_sound 10 (time.Date 2011 2 3 4 5 6 7) 2011 2)).
    vm_compute. reflexivity.
  - apply (proj2 (classifiers_sound 10 (time.Date 2011 2 3 4 5 6 7) 2011 5)).
    vm_compute. reflexivity.
Defined.

(** ** Dates before fiscal year 2006 *)

Lemma first_before_2006 :
  fiscal.first < atDay (time.daysBeforeYear 2006)
  /\ atDay (time.daysBeforeYear 2006) < fiscal.first + 371 * fiscal.Day.
Proof. split; vm_compute; reflexivity. Qed.

Lemma before_2006 t :
  time.Year t <= 2005 -> t < atDay (time.daysBeforeYear 2006).
Proof.
  intros H. destruct (Year_sound t) as [_ Hhi].
  eapply Z.lt_le_trans; [apply Hhi|]. apply atDay_mono.
  apply daysBeforeYear_le. lia.
Qed.

Lemma yearOf_early fuel date :
  time.Year date <= 2005 ->
  yearOf (S fuel) date = Some (time.Year date, fiscal.first).
Proof.
  intros Hy. pose proof (before_2006 date Hy) as Hd.
  destruct first_before_2006 as [_ Hend].
  unfold yearOf. cbv zeta. rewrite Year_anchor by lia. cbn [bind].
  rewrite Add_last_ns. unfold time.Before, time.Add.
  destruct (Z.ltb_spec (fiscal.first + 371 * fiscal.Day - 1) date); [lia|].
  reflexivity.
Qed.

(** For every date of a calendar year up to 2005, the dates of fiscal year
    2006 that fall in 2005 included, [YearForDate] returns the calendar
    year of the date. *)
Theorem YearForDate_until_2005 fuel date :
  time.Year date <= 2005 ->
  fiscal.YearForDate (S fuel) date = Some (time.Year date).
Proof.
  intros Hy. pose proof (before_2006 date Hy) as Hd.
  destruct first_before_2006 as [_ Hend].
  unfold fiscal.YearForDate. rewrite Year_anchor by lia. cbn [bind].
  rewrite Add_last_ns. unfold time.Before, time.Add.
  destruct (Z.ltb_spec (fiscal.first + 371 * fiscal.Day - 1) date); [lia|].
  reflexivity.
Qed.

Lemma YearForDate_until_2005_witness :
  fiscal.YearForDate 1 (time.Date 1999 12 31 0 0 0 0)
  = Some (time.Year (time.Date 1999 12 31 0 0 0 0)).
Proof.
  apply (YearForDate_until_2005 0 (time.Date 1999 12 31 0 0 0 0)).
  vm_compute. discriminate.
Defined.

Lemma scan_never resolve date year :
  (forall i, exists r, resolve year i = Some r /\ contains r date = false) ->
  forall n i, fiscal.scan resolve n date year i = None.
Proof.
  intros Hmiss. induction n as [|n IH]; intros i; [reflexivity|].
  rewrite scan_step. destruct (Hmiss i) as (r & -> & Hc).
  cbn [bind]. rewrite Hc. apply IH.
Qed.

Lemma offsets_nonneg long i :
  0 <= fst (quarterOffsets long i) /\ 0 <= fst (periodOffsets long i).
Proof.
  destruct (quarterOffsets_all long i) as (j & Hj & ->).
  destruct (periodOffsets_all long i) as (j' & Hj' & ->).
  split.
  - apply (quarterOffsets_in_year long j Hj).
  - apply (periodOffsets_in_year long j' Hj').
Qed.

(** For a date before the anchor [QuarterForDate] and [PeriodForDate] never
    return: every index, whatever the counter wraps around to, resolves to
    a quarter or period of fiscal year 2006, which starts after the date. *)
Theorem scans_before_anchor date :
  time.Before date fiscal.first = true ->
  forall fuel,
    fiscal.QuarterForDate fuel date = None
    /\ fiscal.PeriodForDate fuel date = None.
Proof.
  intros Hb fuel. unfold time.Before in Hb. apply Z.ltb_lt in Hb.
  destruct first_before_2006 as [H2006 _].
  assert (Hy : time.Year date <= 2005) by (apply Year_le; change (2005 + 1) with 2006; lia).
  rewrite QuarterForDate_eq, PeriodForDate_eq.
  destruct fuel as [|fuel]; [split; reflexivity|].
  rewrite yearOf_early by assumption. cbn [bind].
  pose proof Day_pos as HD.
  split; apply scan_never; intros i.
  - rewrite Quarter_anchor by lia. eexists. split; [reflexivity|].
    apply contains_early. pose proof (offsets_nonneg true i). nia.
  - rewrite Period_anchor by lia. eexists. split; [reflexivity|].
    apply contains_early. pose proof (offsets_nonneg true i). nia.
Qed.

Lemma scans_before_anchor_witness :
  fiscal.QuarterForDate 1000 (time.Date 2005 9 24 23 59 59 999999999) = None
  /\ fiscal.PeriodForDate 1000 (time.Date 2005 9 24 23 59 59 999999999) = None.
Proof.
  apply (scans_before_anchor (time.Date 2005 9 24 23 59 59 999999999)).
  vm_compute. reflexivity.
Defined.

(** * The argument checks of package [report] *)

(** Follows the chain of checks: splits on the first test of the outermost
    [if], one atom at a time. *)
Ltac head_case :=
  match goal with
  | |- (if ?c then _ else _) = None <-> _ =>
      match c with
      | context [String.eqb ?a ?b] => destruct (String.eqb_spec a b)
      | context [?a <=? ?b] => destruct (Z.leb_spec a b)
      | context [?a <? ?b] => destruct (Z.ltb_spec a b)
      | context [?a >? ?b] => destruct (Z.gtb_spec a b)
      | context [?a =? ?b] => destruct (Z.eqb_spec a b)
      end; cbn [negb andb orb]
  end.

Ltac settle :=
  let Hacc := fresh "Hacc" in
  split; intros Hacc;
  [ first [discriminate Hacc | intuition (congruence || lia)]
  | first [reflexivity | exfalso; intuition (congruence || lia)] ].

(** [Config.Check] accepts a configuration exactly when its mode is
    [Normal] or [Robot.xml] and its access token is not empty. *)
Theorem Check_accepts cfg :
  report.Check cfg = None
  <-> (report.Mode cfg = "Normal"%string \/ report.Mode cfg = "Robot.xml"%string)
      /\ report.AccessToken cfg <> EmptyString.
Proof.
  unfold report.Check. repeat head_case; settle.
Qed.

Lemma Check_accepts_witness :
  report.Check {| report.AccessToken := "token"; report.Mode := "Robot.xml" |}
  = None.
Proof.
  apply (proj2 (Check_accepts
                  {| report.AccessToken := "token";
                     report.Mode := "Robot.xml" |})).
  cbn [report.Mode report.AccessToken].
  split; [right; reflexivity | discriminate].
Defined.

(** [validateSalesReportArgs] accepts its arguments exactly when account and
    vendor are positive, the report type is [Sales] or [Newsstand], the
    subtype is [Summary], [Detailed] or [Opt-In], and the date has the
    length its date type asks for: 8 bytes for [Daily] and [Weekly], 6 for
    [Monthly], 4 for [Yearly].  The bytes of the date are not looked at. *)
Theorem validateSalesReportArgs_accepts account vendor rt sub dt date :
  report.validateSalesReportArgs account vendor rt sub dt date = None
  <-> 0 < account /\ 0 < vendor
      /\ (rt = "Sales" \/ rt = "Newsstand")%string
      /\ (sub = "Summary" \/ sub = "Detailed" \/ sub = "Opt-In")%string
      /\ ((dt = "Daily"%string /\ String.length date = 8%nat)
          \/ (dt = "Weekly"%string /\ String.length date = 8%nat)
          \/ (dt = "Monthly"%string /\ String.length date = 6%nat)
          \/ (dt = "Yearly"%string /\ String.length date = 4%nat)).
Proof.
  unfold report.validateSalesReportArgs, report.len.
  repeat head_case; settle.
Qed.

Lemma validateSalesReportArgs_accepts_witness :
  report.validateSalesReportArgs 1 2 "Newsstand" "Opt-In" "Monthly" "2024xy"
  = None.
Proof.
  apply (proj2 (validateSalesReportArgs_accepts
                  1 2 "Newsstand" "Opt-In" "Monthly" "2024xy")).
  repeat split; try lia.
  - right. reflexivity.
  - right. right. reflexivity.
  - right. right. left. split; reflexivity.
Defined.

(** [validateFinancialReportArgs] accepts its arguments exactly when account
    and vendor are positive, the region code has two bytes, the report type
    is [Financial], the fiscal year is positive and at most the current
    calendar year plus one, and the fiscal period is between 1 and 12. *)
Theorem validateFinancialReportArgs_accepts now account vendor rc rt fy fp :
  report.validateFinancialReportArgs now account vendor rc rt fy fp = None
  <-> 0 < account /\ 0 < vendor
      /\ String.length rc = 2%nat
      /\ rt = "Financial"%string
      /\ 0 < fy <= int.add (time.Year now) 1
      /\ 1 <= fp <= 12.
Proof.
  unfold report.validateFinancialReportArgs, report.len.
  repeat head_case; settle.
Qed.

Lemma validateFinancialReportArgs_accepts_witness :
  report.validateFinancialReportArgs
    (time.Date 2024 6 1 0 0 0 0) 1 2 "US" "Financial" 2025 12 = None.
Proof.
  apply (proj2 (validateFinancialReportArgs_accepts
                  (time.Date 2024 6 1 0 0 0 0) 1 2 "US" "Financial" 2025 12)).
  repeat split; try lia.
  vm_compute. discriminate.
Defined.

(** ** The two copies of the checks *)

Lemma checkConfig0_accepts cfg :
  report0.checkConfig cfg = None
  <-> (report0.Mode cfg = "Normal"%string \/ report0.Mode cfg = "Robot.xml"%string)
      /\ report0.AccessToken cfg <> EmptyString.
Proof.
  unfold report0.checkConfig. repeat head_case; settle.
Qed.

Lemma validateSalesReportArgs0_accepts account vendor rt sub dt date :
  report0.validateSalesReportArgs account vendor rt sub dt date = None
  <-> 0 < account /\ 0 < vendor
      /\ (rt = "Sales" \/ rt = "Newsstand")%string
      /\ (sub = "Summary" \/ sub = "Detailed" \/ sub = "Opt-In")%string
      /\ ((dt = "Daily"%string /\ String.length date = 8%nat)
          \/ (dt = "Weekly"%string /\ String.length date = 8%nat)
          \/ (dt = "Monthly"%string /\ String.length date = 6%nat)
          \/ (dt = "Yearly"%string /\ String.length date = 4%nat)).
Proof.
  unfold report0.validateSalesReportArgs, report.len.
  repeat head_case; settle.
Qed.

Lemma validateFinancialReportArgs0_accepts now account vendor rc rt fy fp :
  report0.validateFinancialReportArgs now account vendor rc rt fy fp = None
  <-> 0 < account /\ 0 < vendor
      /\ String.length rc = 2%nat
      /\ rt = "Financial"%string
      /\ 0 < fy <= time.Year now
      /\ 1 <= fp <= 12.
Proof.
  unfold report0.validateFinancialReportArgs, report.len.
  repeat head_case; settle.
Qed.

(** The two copies of the checks accept the same configurations and the
    same sales arguments.  On financial arguments, while the current
    calendar year is positive and below the largest [int], the later copy
    accepts what the earlier one accepts and, besides, the fiscal year that
    follows the current calendar year. *)
Theorem checks_across_copies now token mode account vendor
  rt sub dt date rc frt fy fp :
  0 < time.Year now < int.max ->
  (report0.checkConfig
     {| report0.AccessToken := token; report0.Mode := mode |} = None
   <-> report.Check
         {| report.AccessToken := token; report.Mode := mode |} = None)
  /\ (report0.validateSalesReportArgs account vendor rt sub dt date = None
      <-> report.validateSalesReportArgs account vendor rt sub dt date = None)
  /\ (report.validateFinancialReportArgs now account vendor rc frt fy fp = None
      <-> report0.validateFinancialReportArgs now account vendor rc frt fy fp
          = None
          \/ (fy = time.Year now + 1
              /\ report0.validateFinancialReportArgs
                   now account vendor rc frt (time.Year now) fp = None)).
Proof.
  intros Hnow.
  destruct int_bounds as [Imin Imax].
  split; [|split].
  - unfold report0.checkConfig, report.Check.
    cbn [report.Mode report.AccessToken report0.Mode report0.AccessToken].
    repeat head_case; settle.
  - unfold report0.validateSalesReportArgs, report.validateSalesReportArgs.
    repeat head_case; settle.
  - rewrite !validateFinancialReportArgs0_accepts.
    unfold report.validateFinancialReportArgs, report.len.
    rewrite int_add_small by lia.
    repeat head_case; try settle.
    split; [intros _ | reflexivity].
    destruct (Z.le_gt_cases fy (time.Year now)); [left | right];
      intuition lia.
Qed.

Lemma checks_across_copies_witness :
  (report0.checkConfig
     {| report0.AccessToken := "token"; report0.Mode := "Normal" |} = None
   <-> report.Check
         {| report.AccessToken := "token"; report.Mode := "Normal" |} = None)
  /\ (report0.validateSalesReportArgs 1 2 "Sales" "Summary" "Daily" "20240601"
      = None
      <-> report.validateSalesReportArgs 1 2 "Sales" "Summary" "Daily" "20240601"
          = None)
  /\ (report.validateFinancialReportArgs
        (time.Date 2024 6 1 0 0 0 0) 1 2 "US" "Financial" 2025 3 = None
      <-> report0.validateFinancialReportArgs
            (time.Date 2024 6 1 0 0 0 0) 1 2 "US" "Financial" 2025 3 = None
          \/ (2025 = time.Year (time.Date 2024 6 1 0 0 0 0) + 1
              /\ report0.validateFinancialReportArgs
                   (time.Date 2024 6 1 0 0 0 0) 1 2 "US" "Financial"
                   (time.Year (time.Date 2024 6 1 0 0 0 0)) 3 = None)).
Proof.
  apply (checks_across_copies (time.Date 2024 6 1 0 0 0 0)
           "token" "Normal" 1 2 "Sales" "Summary" "Daily" "20240601"
           "US" "Financial" 2025 3).
  vm_compute. split; reflexivity.
Defined.
